(** * Piano-lesson booking backend (bb.py): store, availability engine, submission

    A shallow embedding of the booking code of [bb.py]:

    - the values Python hands around (JSON values of a request, the
      entries of the [appointment_data] dict, the columns of a fetched row);
    - the [appointments] table that [init_db] creates, with SQLite's column
      affinities, its NOT NULL columns and its UNIQUE(date, time, duration)
      constraint;
    - the four storage functions, the two time helpers, the slot generator
      and the submission route, each written after its Python text;
    - the properties of the store and of the availability engine.

    Conventions.  Python strings are byte strings here ([string] of the
    standard library); white space and digits are the ASCII ones.  JSON
    numbers are integers: floating point values and SQLite's REAL storage
    class are left out of the embedding.  An exception is a value: a
    function that can raise returns an [outcome]. *)

From Stdlib Require Import ZArith String Ascii List Lia DecimalString DecimalPos.
From stdpp Require Import base option list gmap strings.

Open Scope string_scope.
Open Scope Z_scope.
Open Scope list_scope.

(** ** Python values and exceptions *)

(** A JSON value as Python holds it.  [PColl] stands for a list or a dict:
    only its truth value (non-empty or not) matters to the code below, and
    sqlite3 cannot bind it. *)
Inductive pyval : Type :=
  | PNone
  | PBool (b : bool)
  | PInt (n : Z)
  | PStr (s : string)
  | PColl (nonempty : bool).

#[global] Instance pyval_eq_dec : EqDecision pyval.
Proof. solve_decision. Defined.

(** The exception classes the code can meet.  [OperationalError],
    [IntegrityError] and [InterfaceError] are sqlite3's; the others are
    built in. *)
Inductive exn : Type :=
  | KeyError
  | AttributeError
  | ValueError
  | TypeError
  | OverflowError
  | InterfaceError
  | OperationalError
  | IntegrityError.

#[global] Instance exn_eq_dec : EqDecision exn.
Proof. solve_decision. Defined.

Inductive outcome (A : Type) : Type :=
  | Returns (a : A)
  | Raises (e : exn).

Arguments Returns {A} a.
Arguments Raises {A} e.

#[global] Instance outcome_ret : MRet outcome := fun A a => Returns a.
#[global] Instance outcome_bind : MBind outcome := fun A B k m =>
  match m with
  | Returns a => k a
  | Raises e => Raises e
  end.

(** [bool(v)]: Python's truth value, as [not v] and [if v] test it. *)
Definition truthy (v : pyval) : bool :=
  match v with
  | PNone => false
  | PBool b => b
  | PInt n => negb (n =? 0)
  | PStr s => negb (String.eqb s "")
  | PColl nonempty => nonempty
  end.

(** [v == n] for an integer literal [n]; [True == 1] and [False == 0]. *)
Definition py_eq_int (v : pyval) (n : Z) : bool :=
  match v with
  | PInt k => k =? n
  | PBool b => (if b then 1 else 0) =? n
  | _ => false
  end.

(** [d.get(k)] and [d.get(k, default)] *)
Definition dict_get (d : gmap string pyval) (k : string) : pyval :=
  default PNone (d !! k).

Definition dict_get_default (d : gmap string pyval) (k : string) (dflt : pyval) : pyval :=
  default dflt (d !! k).

(** [d[k]] *)
Definition dict_item (d : gmap string pyval) (k : string) : outcome pyval :=
  match d !! k with
  | Some v => Returns v
  | None => Raises KeyError
  end.

(** ** Strings: strip, split, int(), decimal formatting *)

(** [str.isspace] on one ASCII character: tab, line feed, vertical tab,
    form feed, carriage return, the four separators 28..31, and space. *)
Definition py_isspace (c : ascii) : bool :=
  let n := Z.of_nat (nat_of_ascii c) in
  ((9 <=? n) && (n <=? 13)) || ((28 <=? n) && (n <=? 32)).

Fixpoint lstrip (s : string) : string :=
  match s with
  | String c s' => if py_isspace c then lstrip s' else s
  | EmptyString => EmptyString
  end.

Fixpoint rstrip (s : string) : string :=
  match s with
  | String c s' =>
      match rstrip s' with
      | EmptyString => if py_isspace c then EmptyString else String c EmptyString
      | r => String c r
      end
  | EmptyString => EmptyString
  end.

(** [s.strip()] *)
Definition strip (s : string) : string := rstrip (lstrip s).

(** [s.split(sep)] for a one-character separator. *)
Fixpoint split (sep : ascii) (s : string) : list string :=
  match s with
  | EmptyString => [EmptyString]
  | String c s' =>
      if Ascii.eqb c sep then EmptyString :: split sep s'
      else match split sep s' with
           | h :: t => String c h :: t
           | [] => [String c EmptyString]
           end
  end.

Definition digit_of (c : ascii) : option Z :=
  let n := Z.of_nat (nat_of_ascii c) in
  if (48 <=? n) && (n <=? 57) then Some (n - 48) else None.

(** Digits of a decimal literal as [int()] reads them: at least one digit,
    a single underscore allowed between two digits. *)
Fixpoint py_digits (acc : Z) (after_digit : bool) (s : string) : option Z :=
  match s with
  | EmptyString => if after_digit then Some acc else None
  | String c s' =>
      match digit_of c with
      | Some d => py_digits (10 * acc + d) true s'
      | None =>
          if Ascii.eqb c "_" && after_digit then py_digits acc false s' else None
      end
  end.

(** [int(s)] in base ten: surrounding white space, an optional sign, then
    the digits; anything else is a [ValueError]. *)
Definition py_int (s : string) : outcome Z :=
  let parsed :=
    match strip s with
    | String "-" r => Z.opp <$> py_digits 0 false r
    | String "+" r => py_digits 0 false r
    | r => py_digits 0 false r
    end in
  match parsed with
  | Some n => Returns n
  | None => Raises ValueError
  end.

(** [str(n)]: the decimal text of an integer. *)
Definition decimal (n : Z) : string := NilZero.string_of_int (Z.to_int n).

(** [f"{n:02d}"]: decimal text, zero-padded to two characters; the sign of
    a negative number counts as one of them. *)
Definition fmt_02d (n : Z) : string :=
  let s := decimal n in
  if (String.length s <? 2)%nat then "0" +:+ s else s.

(** ** The time helpers of bb.py *)

(** [time_to_minutes]: [h, m = map(int, t.split(":"))], then [h * 60 + m].
    Unpacking anything but two parts is a [ValueError], as is a part that
    [int] refuses. *)
Definition time_to_minutes (t : string) : outcome Z :=
  match split ":" t with
  | [a; b] =>
      h ← py_int a;
      m ← py_int b;
      Returns (h * 60 + m)
  | _ => Raises ValueError
  end.

(** [minutes_to_time]: [h, m = divmod(m, 60)], then [f"{h:02d}:{m:02d}"]. *)
Definition minutes_to_time (m : Z) : string :=
  let h := m / 60 in
  let m' := m mod 60 in
  fmt_02d h +:+ ":" +:+ fmt_02d m'.

(** ** SQLite: values, affinities, the appointments table *)

(** A stored value, by storage class. *)
Inductive sqlval : Type :=
  | SNull
  | SInteger (n : Z)
  | SText (s : string).

#[global] Instance sqlval_eq_dec : EqDecision sqlval.
Proof. solve_decision. Defined.

(** How sqlite3 binds a Python value to a [?]: [None] is NULL, a [bool] is
    an [int], an [int] must fit in 64 bits, a [str] is text, and a list or
    a dict is not supported. *)
Definition bind_param (v : pyval) : outcome sqlval :=
  match v with
  | PNone => Returns SNull
  | PBool b => Returns (SInteger (if b then 1 else 0))
  | PInt n =>
      if (- 2 ^ 63 <=? n) && (n <? 2 ^ 63) then Returns (SInteger n)
      else Raises OverflowError
  | PStr s => Returns (SText s)
  | PColl _ => Raises InterfaceError
  end.

(** What a fetched column is in Python. *)
Definition py_of_sql (v : sqlval) : pyval :=
  match v with
  | SNull => PNone
  | SInteger n => PInt n
  | SText s => PStr s
  end.

Inductive affinity : Type := TEXT | INTEGER.

Definition sqlite_isspace (c : ascii) : bool :=
  let n := Z.of_nat (nat_of_ascii c) in
  ((9 <=? n) && (n <=? 13)) || (n =? 32).

Fixpoint sqlite_skip_spaces (s : string) : string :=
  match s with
  | String c s' => if sqlite_isspace c then sqlite_skip_spaces s' else s
  | EmptyString => EmptyString
  end.

(** Digits, then nothing but white space. *)
Fixpoint sqlite_digits (acc : option Z) (s : string) : option Z :=
  match s with
  | EmptyString => acc
  | String c s' =>
      match digit_of c with
      | Some d => sqlite_digits (Some (10 * default 0 acc + d)) s'
      | None =>
          if sqlite_isspace c && String.eqb (sqlite_skip_spaces s') ""
          then acc else None
      end
  end.

(** A text that is a well-formed integer literal of 64 bits: optional white
    space around an optional sign and decimal digits. *)
Definition integer_literal (s : string) : option Z :=
  let parsed :=
    match sqlite_skip_spaces s with
    | String "-" r => Z.opp <$> sqlite_digits None r
    | String "+" r => sqlite_digits None r
    | r => sqlite_digits None r
    end in
  match parsed with
  | Some n => if (- 2 ^ 63 <=? n) && (n <? 2 ^ 63) then Some n else None
  | None => None
  end.

(** Column affinity, applied to a value before it is stored in the column
    or compared with it.  A TEXT column turns a number into its text; an
    INTEGER column turns the text of an integer literal into the integer.
    (A text that SQLite would read as a REAL literal, or as an integer
    beyond 64 bits, stays a text here: REAL is not modelled.) *)
Definition apply_affinity (a : affinity) (v : sqlval) : sqlval :=
  match a, v with
  | TEXT, SInteger n => SText (decimal n)
  | INTEGER, SText s =>
      match integer_literal s with
      | Some n => SInteger n
      | None => SText s
      end
  | _, _ => v
  end.

(** [column = ?]: the parameter takes the column's affinity; a comparison
    with NULL is never true. *)
Definition sql_equal (a : affinity) (column param : sqlval) : bool :=
  match apply_affinity a param with
  | SNull => false
  | p => bool_decide (column = p)
  end.

(** A row of [appointments], column by column as [init_db] declares them. *)
Record row : Type := {
  row_id : Z;
  row_name : sqlval;
  row_email : sqlval;
  row_phone : sqlval;
  row_date : sqlval;
  row_time : sqlval;
  row_duration : sqlval;
  row_lesson_type : sqlval;
  row_created_at : sqlval
}.

(** The columns of UNIQUE(date, time, duration). *)
Definition slot_of (r : row) : sqlval * sqlval * sqlval :=
  (row_date r, row_time r, row_duration r).

(** The database file: the table, once created, and the AUTOINCREMENT
    counter that [sqlite_sequence] keeps for it. *)
Record database : Type := {
  appointments : option (list row);
  sqlite_sequence : Z
}.

(** A new database file, before [init_db] has run. *)
Definition fresh_db : database :=
  {| appointments := None; sqlite_sequence := 0 |}.

(** CREATE TABLE IF NOT EXISTS appointments (...) *)
Definition create_table (db : database) : database :=
  match appointments db with
  | Some _ => db
  | None => {| appointments := Some []; sqlite_sequence := sqlite_sequence db |}
  end.

(** The NOT NULL columns: name, date, time, duration, lesson_type. *)
Definition not_null_ok (r : row) : bool :=
  negb (bool_decide (row_name r = SNull))
  && negb (bool_decide (row_date r = SNull))
  && negb (bool_decide (row_time r = SNull))
  && negb (bool_decide (row_duration r = SNull))
  && negb (bool_decide (row_lesson_type r = SNull)).

(** UNIQUE(date, time, duration): some stored row has the same triple. *)
Definition slot_taken (rows : list row) (r : row) : bool :=
  existsb (fun r' => bool_decide (slot_of r' = slot_of r)) rows.

(** INSERT INTO appointments (name, email, phone, date, time, duration,
    lesson_type) VALUES (?, ?, ?, ?, ?, ?, ?), then the commit.  Either
    constraint failure is SQLITE_CONSTRAINT, which sqlite3 raises as
    [IntegrityError]; a failed statement leaves the file as it was. *)
Definition new_row (now : string) (db : database)
    (name email phone date time duration lesson_type : sqlval) : row :=
  {| row_id := sqlite_sequence db + 1;
     row_name := apply_affinity TEXT name;
     row_email := apply_affinity TEXT email;
     row_phone := apply_affinity TEXT phone;
     row_date := apply_affinity TEXT date;
     row_time := apply_affinity TEXT time;
     row_duration := apply_affinity INTEGER duration;
     row_lesson_type := apply_affinity TEXT lesson_type;
     row_created_at := SText now |}.

Definition insert_row (db : database) (rows : list row) (r : row) : outcome database :=
  if negb (not_null_ok r) then Raises IntegrityError
  else if slot_taken rows r then Raises IntegrityError
  else Returns {| appointments := Some (rows ++ [r]);
                  sqlite_sequence := sqlite_sequence db + 1 |}.

(** SELECT * FROM appointments WHERE date = ?  (SQL promises no order
    without ORDER BY; the rows come here in the order of the table.) *)
Definition select_date (rows : list row) (date : sqlval) : list row :=
  List.filter (fun r => sql_equal TEXT (row_date r) date) rows.

(** SELECT id FROM appointments WHERE date = ? AND time = ? AND duration = ? *)
Definition select_slot (rows : list row) (date time duration : sqlval) : list row :=
  List.filter (fun r => sql_equal TEXT (row_date r) date
                        && sql_equal TEXT (row_time r) time
                        && sql_equal INTEGER (row_duration r) duration) rows.

(** What can go wrong with the file itself during one call: nothing, or
    [sqlite3.connect] cannot open it, or the statement (or its commit)
    fails with an [OperationalError] such as a locked database or an I/O
    error. *)
Inductive fault : Type := NoFault | ConnectFault | ExecuteFault.

#[global] Instance fault_eq_dec : EqDecision fault.
Proof. solve_decision. Defined.

(** [get_db_connection] *)
Definition get_db_connection (f : fault) : outcome unit :=
  match f with
  | ConnectFault => Raises OperationalError
  | _ => Returns tt
  end.

(** [conn.execute(...)]: the statement is prepared against the table (a
    missing table is an [OperationalError]) and then run on its rows. *)
Definition execute {A : Type} (f : fault) (db : database)
    (run : list row -> outcome A) : outcome A :=
  match f with
  | ExecuteFault => Raises OperationalError
  | _ =>
      match appointments db with
      | None => Raises OperationalError
      | Some rows => run rows
      end
  end.

(** [dict(row)] *)
Definition dict_of_row (r : row) : gmap string pyval :=
  <["id" := PInt (row_id r)]>
  (<["name" := py_of_sql (row_name r)]>
  (<["email" := py_of_sql (row_email r)]>
  (<["phone" := py_of_sql (row_phone r)]>
  (<["date" := py_of_sql (row_date r)]>
  (<["time" := py_of_sql (row_time r)]>
  (<["duration" := py_of_sql (row_duration r)]>
  (<["lesson_type" := py_of_sql (row_lesson_type r)]>
  (<["created_at" := py_of_sql (row_created_at r)]> ∅)))))))).

(** ** The storage functions of bb.py *)

(** [init_db]: the connection is opened before the [try]; an error of the
    CREATE TABLE statement is logged and swallowed. *)
Definition init_db (f : fault) (db : database) : outcome unit * database :=
  match get_db_connection f with
  | Raises e => (Raises e, db)
  | Returns _ =>
      match f with
      | ExecuteFault => (Returns tt, db)
      | _ => (Returns tt, create_table db)
      end
  end.

(** [get_appointments_for_date] *)
Definition get_appointments_for_date (f : fault) (db : database) (date : pyval)
    : outcome (list (gmap string pyval)) :=
  _ ← get_db_connection f;
  let fetched : outcome (list row) :=
    execute f db (fun rows =>
      d ← bind_param date;
      Returns (select_date rows d)) in
  match fetched with
  | Returns rows => Returns (dict_of_row <$> rows)
  | Raises _ => Returns []
  end.

Definition saved_message : string := "Appointment saved successfully".
Definition slot_taken_message : string :=
  "This time slot is already booked. Please select a different time.".
Definition save_failed_message : string :=
  "Failed to save appointment. Please try again.".

(** [save_appointment]: returns the pair [(success, message)] and the
    database file after the call.  [now] is CURRENT_TIMESTAMP. *)
Definition save_appointment (f : fault) (now : string) (db : database)
    (appointment_data : gmap string pyval) : outcome (bool * string) * database :=
  match get_db_connection f with
  | Raises e => (Raises e, db)
  | Returns _ =>
      let inserted : outcome database :=
        name ← dict_item appointment_data "name";
        let email := dict_get_default appointment_data "email" (PStr "") in
        let phone := dict_get_default appointment_data "phone" (PStr "") in
        date ← dict_item appointment_data "date";
        time ← dict_item appointment_data "time";
        duration ← dict_item appointment_data "duration";
        lesson_type ← dict_item appointment_data "lesson_type";
        execute f db (fun rows =>
          n ← bind_param name;
          e ← bind_param email;
          p ← bind_param phone;
          d ← bind_param date;
          t ← bind_param time;
          u ← bind_param duration;
          l ← bind_param lesson_type;
          insert_row db rows (new_row now db n e p d t u l)) in
      match inserted with
      | Returns db' => (Returns (true, saved_message), db')
      | Raises IntegrityError => (Returns (false, slot_taken_message), db)
      | Raises _ => (Returns (false, save_failed_message), db)
      end
  end.

(** [is_slot_available]: [existing is None] when the query ran, [False]
    when it raised. *)
Definition is_slot_available (f : fault) (db : database) (date time duration : pyval)
    : outcome bool :=
  _ ← get_db_connection f;
  let existing : outcome (option row) :=
    execute f db (fun rows =>
      d ← bind_param date;
      t ← bind_param time;
      u ← bind_param duration;
      Returns (head (select_slot rows d t u))) in
  match existing with
  | Returns None => Returns true
  | Returns (Some _) => Returns false
  | Raises _ => Returns false
  end.

(** ** The availability engine of bb.py *)

(** [range(start, stop, step)] for a positive step. *)
Definition py_range (start stop step : Z) : list Z :=
  (fun i => start + step * Z.of_nat i)
    <$> seq 0 (Z.to_nat ((stop - start + step - 1) / step)).

(** [possible]: all half hour slots from 08:00 to 19:30. *)
Definition possible : list string :=
  minutes_to_time <$> py_range (8 * 60) (20 * 60) 30.

(** [n + v] for an integer [n]: a [bool] counts as 0 or 1, anything else
    that a row or a dict can hold is a [TypeError]. *)
Definition py_add_int (n : Z) (v : pyval) : outcome Z :=
  match v with
  | PInt k => Returns (n + k)
  | PBool b => Returns (n + (if b then 1 else 0))
  | _ => Raises TypeError
  end.

(** [time_to_minutes(v)] on a value that may not be a [str]. *)
Definition time_to_minutes_of (v : pyval) : outcome Z :=
  match v with
  | PStr t => time_to_minutes t
  | _ => Raises AttributeError
  end.

(** The test of the inner loop on one booked appointment [b]. *)
Definition overlaps (eff_start eff_end : Z) (b : gmap string pyval) : outcome bool :=
  t ← dict_item b "time";
  b_start ← time_to_minutes_of t;
  d ← dict_item b "duration";
  b_end ← py_add_int b_start d;
  Returns ((eff_start <? b_end) && (eff_end >? b_start)).

(** The inner loop: [overlap] becomes [True] at the first booked
    appointment that overlaps, and the loop breaks there. *)
Fixpoint any_overlap (eff_start eff_end : Z) (booked : list (gmap string pyval))
    : outcome bool :=
  match booked with
  | [] => Returns false
  | b :: rest =>
      o ← overlaps eff_start eff_end b;
      if (o : bool) then Returns true else any_overlap eff_start eff_end rest
  end.

(** The outer loop over the candidate starts; the result is [available]. *)
Fixpoint slot_loop (booked : list (gmap string pyval)) (dur buffer : Z)
    (starts : list string) : outcome (list string) :=
  match starts with
  | [] => Returns []
  | start :: rest =>
      start_min ← time_to_minutes start;
      let end_min := start_min + dur in
      if end_min >? 20 * 60 then slot_loop booked dur buffer rest
      else
        let eff_start := start_min - buffer in
        let eff_end := end_min + buffer in
        let eff_start := if eff_start <? 0 then 0 else eff_start in
        overlap ← any_overlap eff_start eff_end booked;
        available ← slot_loop booked dur buffer rest;
        Returns (if (overlap : bool) then available else start :: available)
  end.

(** [generate_available_slots(date, dur, session_type)] *)
Definition generate_available_slots (f : fault) (db : database)
    (date : string) (dur : Z) (session_type : string) : outcome (list string) :=
  booked ← get_appointments_for_date f db (PStr date);
  let buffer := if String.eqb session_type "Student Location" then 30 else 0 in
  slot_loop booked dur buffer possible.

(** ** The submission route of bb.py *)

(** What surrounds one POST /submit_appointment: the state of the file at
    the pre-check and at the insert, the clock, and whether the mail built
    from an appointment gets out (formatting and SMTP transport are not
    modelled further). *)
Record conditions : Type := {
  check_fault : fault;
  save_fault : fault;
  clock : string;
  mail_delivers : gmap string pyval -> bool
}.

(** The site: the database file and the notifications sent so far. *)
Record site : Type := {
  site_db : database;
  outbox : list (gmap string pyval)
}.

(** The two JSON answers: [{'success': False, 'errors': errors}] with
    status 400, and [{'success': True, 'appointment': ..., 'message': ...}]. *)
Inductive response : Type :=
  | Rejected (errors : gmap string string)
  | Accepted (appointment : gmap string pyval) (message : string).

(** [send_booking_email]: any failure is caught and reported as [False]. *)
Definition send_booking_email (c : conditions) (sent : list (gmap string pyval))
    (appointment_data : gmap string pyval) : bool * list (gmap string pyval) :=
  if mail_delivers c appointment_data
  then (true, (sent ++ [appointment_data]))
  else (false, sent).

(** [data.get('name', '').strip()] *)
Definition stripped_name (data : gmap string pyval) : outcome string :=
  match dict_get_default data "name" (PStr "") with
  | PStr s => Returns (strip s)
  | _ => Raises AttributeError
  end.

(** The [errors] dict of [submit_appointment]. *)
Definition validation_errors (duration day time email phone : pyval) (name : string)
    : gmap string string :=
  let errors : gmap string string := ∅ in
  let errors :=
    if negb (py_eq_int duration 30 || py_eq_int duration 60)
    then <["duration" := "Invalid duration"]> errors else errors in
  let errors :=
    if negb (truthy day) || negb (truthy time)
    then <["datetime" := "Select a day and time"]> errors else errors in
  let errors :=
    if negb (truthy email) && negb (truthy phone)
    then <["contact" := "Provide at least email or phone"]> errors else errors in
  let errors :=
    if String.eqb name ""
    then <["name" := "Please provide your name"]> errors else errors in
  errors.

(** [submit_appointment], on the decoded JSON object [data]. *)
Definition submit_appointment (c : conditions) (s : site) (data : gmap string pyval)
    : outcome response * site :=
  let duration := dict_get data "duration" in
  let lesson_type := dict_get data "lesson_type" in
  let day := dict_get data "date" in
  let time := dict_get data "time" in
  let email := dict_get_default data "email" (PStr "") in
  let phone := dict_get_default data "phone" (PStr "") in
  match stripped_name data with
  | Raises e => (Raises e, s)
  | Returns name =>
      let errors := validation_errors duration day time email phone name in
      if bool_decide (errors ≠ ∅) then (Returns (Rejected errors), s)
      else
        match is_slot_available (check_fault c) (site_db s) day time duration with
        | Raises e => (Raises e, s)
        | Returns false =>
            (Returns (Rejected {[ "slot" := slot_taken_message ]}), s)
        | Returns true =>
            let appointment : gmap string pyval :=
              <["name" := PStr name]>
              (<["date" := day]>
              (<["time" := time]>
              (<["duration" := duration]>
              (<["lesson_type" := lesson_type]>
              (<["email" := email]>
              (<["phone" := phone]> ∅)))))) in
            match save_appointment (save_fault c) (clock c) (site_db s) appointment with
            | (Raises e, db') => (Raises e, {| site_db := db'; outbox := outbox s |})
            | (Returns (true, message), db') =>
                let '(_, sent) := send_booking_email c (outbox s) appointment in
                (Returns (Accepted appointment message),
                 {| site_db := db'; outbox := sent |})
            | (Returns (false, message), db') =>
                (Returns (Rejected {[ "database" := message ]}),
                 {| site_db := db'; outbox := outbox s |})
            end
        end
  end.

(** ** Reachable states *)

(** One call that can write: [init_db], [save_appointment], or a request
    to [submit_appointment], in any circumstances and on any input. *)
Inductive step : site -> site -> Prop :=
  | step_init f s :
      step s {| site_db := (init_db f (site_db s)).2; outbox := outbox s |}
  | step_save f now s d :
      step s {| site_db := (save_appointment f now (site_db s) d).2;
                outbox := outbox s |}
  | step_submit c s data :
      step s (submit_appointment c s data).2.

(** The states the site can be in, starting from a new database file and
    an empty outbox. *)
Definition reachable (s : site) : Prop :=
  rtc step {| site_db := fresh_db; outbox := [] |} s.

(** ** Vocabulary of the properties *)

(** The interval [[start, end)] in minutes that a booked appointment
    occupies: its own start and its own duration, nothing added. *)
Definition booking_interval (b : gmap string pyval) : option (Z * Z) :=
  match b !! "time", b !! "duration" with
  | Some (PStr t), Some (PInt n) =>
      match time_to_minutes t with
      | Returns b_start => Some (b_start, b_start + n)
      | Raises _ => None
      end
  | _, _ => None
  end.

(** A booked appointment whose time reads as HH:MM and whose duration is an
    integer. *)
Definition well_formed_booking (b : gmap string pyval) : Prop :=
  is_Some (booking_interval b).

(** The candidate starts: on the half hour, from 08:00 and before 20:00. *)
Definition half_hour_start (m : Z) : Prop :=
  8 * 60 <= m < 20 * 60 /\ m mod 30 = 0.

(** Strict overlap of the half-open intervals [[s1, e1)] and [[s2, e2)]. *)
Definition intervals_overlap (s1 e1 s2 e2 : Z) : Prop :=
  s1 < e2 /\ e1 > s2.


(** Boolean forms of the above, used by the proofs. *)
Definition overlapsb (s e : Z) (b : gmap string pyval) : bool :=
  match booking_interval b with
  | Some (b_start, b_end) => (s <? b_end) && (e >? b_start)
  | None => false
  end.

Definition acceptb (booked : list (gmap string pyval)) (dur buffer : Z) (m : Z) : bool :=
  negb (m + dur >? 20 * 60)
  && negb (existsb (overlapsb (Z.max 0 (m - buffer)) (m + dur + buffer)) booked).

(** The row that [save_appointment] hands to the INSERT: the entries of
    [appointment_data], bound and given the affinity of their columns. *)
Definition row_to_insert (now : string) (db : database)
    (appointment_data : gmap string pyval) : outcome row :=
  name ← dict_item appointment_data "name";
  date ← dict_item appointment_data "date";
  time ← dict_item appointment_data "time";
  duration ← dict_item appointment_data "duration";
  lesson_type ← dict_item appointment_data "lesson_type";
  n ← bind_param name;
  e ← bind_param (dict_get_default appointment_data "email" (PStr ""));
  p ← bind_param (dict_get_default appointment_data "phone" (PStr ""));
  d ← bind_param date;
  t ← bind_param time;
  u ← bind_param duration;
  l ← bind_param lesson_type;
  Returns (new_row now db n e p d t u l).

(** A value as a column of affinity [a] holds it: the affinity leaves it
    alone, and Python's view of it binds back to it. *)
Definition settled (a : affinity) (v : sqlval) : Prop :=
  apply_affinity a v = v /\ bind_param (py_of_sql v) = Returns v.

Definition stored_row (r : row) : Prop :=
  not_null_ok r = true
  /\ settled TEXT (row_date r)
  /\ settled TEXT (row_time r)
  /\ settled INTEGER (row_duration r).

(** No two rows of the table have the same (date, time, duration). *)
Definition unique_slots (db : database) : Prop :=
  forall rows (i j : nat) (r r' : row),
    appointments db = Some rows ->
    rows !! i = Some r -> rows !! j = Some r' ->
    slot_of r = slot_of r' -> i = j.

(** The (date, time, duration) of [appointment_data] is that of row [r],
    as Python reads the row. *)
Definition same_slot (appointment_data : gmap string pyval) (r : row) : Prop :=
  appointment_data !! "date" = Some (py_of_sql (row_date r))
  /\ appointment_data !! "time" = Some (py_of_sql (row_time r))
  /\ appointment_data !! "duration" = Some (py_of_sql (row_duration r)).

(** Row [r] is an appointment on [date] at [time] for [duration] minutes. *)
Definition books (r : row) (date time : string) (duration : Z) : Prop :=
  row_date r = SText date /\ row_time r = SText time
  /\ row_duration r = SInteger duration.

(** The table holds no appointment with exactly this (date, time, duration). *)
Definition slot_free (db : database) (date time : string) (duration : Z) : Prop :=
  forall rows r, appointments db = Some rows -> In r rows ->
    ~ books r date time duration.

(** The insert of [r] into [rows] breaks UNIQUE(date, time, duration). *)
Definition violates_unique (rows : list row) (r : row) : Prop :=
  exists r', In r' rows /\ slot_of r' = slot_of r.



Definition appointment_fields : list string :=
  ["name"; "email"; "phone"; "date"; "time"; "duration"; "lesson_type"].



(** The name of the request is a string, or is left out. *)
Definition name_is_text (data : gmap string pyval) : Prop :=
  match data !! "name" with
  | Some (PStr _) | None => True
  | Some _ => False
  end.






(** What holds of the table in every reachable state (shown below): the
    slots of its rows are pairwise distinct, and every row is stored as its
    columns require. *)
Definition store_invariant (db : database) : Prop :=
  forall rows, appointments db = Some rows ->
    NoDup (slot_of <$> rows) /\ Forall stored_row rows.

(** ** Sample inputs *)

Definition sample_now : string := "2025-09-01 09:00:00".

(** An online lesson on 2025-09-28 at 10:00 for 60 minutes. *)
Definition sample_booking : gmap string pyval :=
  <["name" := PStr "Ada"]>
  (<["email" := PStr "ada@example.org"]>
  (<["phone" := PStr ""]>
  (<["date" := PStr "2025-09-28"]>
  (<["time" := PStr "10:00"]>
  (<["duration" := PInt 60]>
  (<["lesson_type" := PStr "Online"]> ∅)))))).

(** The same slot, asked for as a lesson at the student's location. *)
Definition sample_rival : gmap string pyval :=
  <["name" := PStr "Bob"]> (<["lesson_type" := PStr "Student Location"]> sample_booking).

(** The request of [sample_booking] without its lesson type. *)
Definition sample_untyped : gmap string pyval :=
  <["lesson_type" := PNone]> sample_booking.

(** The file after [init_db], and after one booking. *)
Definition opened_db : database := (init_db NoFault fresh_db).2.

Definition booked_db : database :=
  (save_appointment NoFault sample_now opened_db sample_booking).2.

Definition booked_site : site := {| site_db := booked_db; outbox := [] |}.

(** What [get_appointments_for_date] lists for the day of [sample_booking]
    once it is booked. *)
Definition booked_day : list (gmap string pyval) :=
  match get_appointments_for_date NoFault booked_db (PStr "2025-09-28") with
  | Returns l => l
  | Raises _ => []
  end.

(** The query of [is_slot_available] runs: the file opens, the statement
    does not fail, the table is there and the duration can be bound. *)
Definition slot_query_runs (f : fault) (db : database) (duration : Z) : Prop :=
  f = NoFault /\ is_Some (appointments db)
  /\ - 2 ^ 63 <= duration < 2 ^ 63.

(** ** The availability route of bb.py *)




(** ** Further vocabulary *)

(** How often the character [c] occurs in [s]. *)
Fixpoint occurrences (c : ascii) (s : string) : nat :=
  match s with
  | EmptyString => 0%nat
  | String c' s' => ((if Ascii.eqb c' c then 1 else 0) + occurrences c s')%nat
  end.

(** Every character of [s] satisfies [p]. *)
Fixpoint all_chars (p : ascii -> bool) (s : string) : bool :=
  match s with
  | EmptyString => true
  | String c s' => p c && all_chars p s'
  end.

(** A character of the text of an integer: a digit or the minus sign. *)
Definition number_char (c : ascii) : bool :=
  match digit_of c with
  | Some _ => true
  | None => Ascii.eqb c "-"
  end.


(** The rows of the table, none before [init_db]. *)
Definition rows_of (db : database) : list row :=
  default [] (appointments db).

(** The identifiers of the table are 1, 2, ..., in the order of insertion,
    and the AUTOINCREMENT counter is the last of them. *)
Definition ids_sequential (db : database) : Prop :=
  sqlite_sequence db = Z.of_nat (length (rows_of db))
  /\ forall (i : nat) r, rows_of db !! i = Some r -> row_id r = Z.of_nat i + 1.

(** ** Further sample inputs *)

(** A request whose time is no time of day; validation lets it pass. *)
Definition sample_noon : gmap string pyval :=
  <["time" := PStr "noon"]> sample_booking.

Definition sample_conditions : conditions :=
  {| check_fault := NoFault; save_fault := NoFault; clock := sample_now;
     mail_delivers := fun _ => true |}.

(** The site after [init_db], and after the request [sample_noon]. *)
Definition opened_site : site := {| site_db := opened_db; outbox := [] |}.

Definition noon_site : site :=
  (submit_appointment sample_conditions opened_site sample_noon).2.

(** What the engine returns for the day of [sample_booking], for a
    Student-Location lesson of 30 minutes. *)
Definition booked_day_offer : list string :=
  ["08:00"; "08:30"; "09:00"; "11:30"; "12:00"; "12:30"; "13:00"; "13:30";
   "14:00"; "14:30"; "15:00"; "15:30"; "16:00"; "16:30"; "17:00"; "17:30";
   "18:00"; "18:30"; "19:00"; "19:30"].


(** The [appointment] dict that [submit_appointment] builds from the
    request and the stripped name. *)
Definition appointment_of (data : gmap string pyval) (name : string)
    : gmap string pyval :=
  <["name" := PStr name]>
  (<["date" := dict_get data "date"]>
  (<["time" := dict_get data "time"]>
  (<["duration" := dict_get data "duration"]>
  (<["lesson_type" := dict_get data "lesson_type"]>
  (<["email" := dict_get_default data "email" (PStr "")]>
  (<["phone" := dict_get_default data "phone" (PStr "")]> ∅)))))).

(** The request passes the validation of [submit_appointment]. *)
Definition passes_validation (data : gmap string pyval) (name : string) : Prop :=
  stripped_name data = Returns name
  /\ validation_errors (dict_get data "duration") (dict_get data "date")
       (dict_get data "time") (dict_get_default data "email" (PStr ""))
       (dict_get_default data "phone" (PStr "")) name = ∅.




(** * Properties *)

(** ** Helpers: strings, times, affinities *)

Example time_to_minutes_ex : time_to_minutes "10:30" = Returns 630.
Proof. reflexivity. Qed.

Example time_to_minutes_three_parts : time_to_minutes "10:30:00" = Raises ValueError.
Proof. reflexivity. Qed.

Example minutes_to_time_ex : minutes_to_time 485 = "08:05".
Proof. reflexivity. Qed.

Example py_int_ex :
  py_int " 08 " = Returns 8 /\ py_int "-1_0" = Returns (-10)
  /\ py_int "1__0" = Raises ValueError /\ py_int "" = Raises ValueError
  /\ py_int "+ 5" = Raises ValueError.
Proof. repeat split; reflexivity. Qed.

Example strip_ex : strip "  Ada Lovelace  " = "Ada Lovelace".
Proof. reflexivity. Qed.

Example split_ex : split ":" "10::30" = ["10"; ""; "30"].
Proof. reflexivity. Qed.

Example apply_affinity_ex :
  apply_affinity TEXT (SInteger 20250928) = SText "20250928"
  /\ apply_affinity INTEGER (SText " 30 ") = SInteger 30
  /\ apply_affinity INTEGER (SText "half an hour") = SText "half an hour".
Proof. repeat split; reflexivity. Qed.

Lemma py_range_half_hours :
  py_range (8 * 60) (20 * 60) 30 =
  [480; 510; 540; 570; 600; 630; 660; 690; 720; 750; 780; 810;
   840; 870; 900; 930; 960; 990; 1020; 1050; 1080; 1110; 1140; 1170].
Proof. reflexivity. Qed.

Lemma half_hour_start_range (m : Z) :
  half_hour_start m <-> In m (py_range (8 * 60) (20 * 60) 30).
Proof.
  rewrite py_range_half_hours. unfold half_hour_start. split.
  - intros [Hb Hm]. simpl.
    assert (exists k, m = 480 + 30 * k /\ 0 <= k < 24) as (k & -> & Hk).
    { exists ((m - 480) / 30). split; [|split].
      - pose proof (Z.div_mod (m - 480) 30 ltac:(lia)) as E.
        assert ((m - 480) mod 30 = 0) as H0.
        { replace (m - 480) with (m + (-16) * 30) by lia.
          rewrite Z.mod_add by lia. exact Hm. }
        lia.
      - apply Z.div_pos; lia.
      - apply Z.div_lt_upper_bound; lia. }
    assert (k = 0 \/ k = 1 \/ k = 2 \/ k = 3 \/ k = 4 \/ k = 5 \/ k = 6 \/ k = 7
            \/ k = 8 \/ k = 9 \/ k = 10 \/ k = 11 \/ k = 12 \/ k = 13 \/ k = 14
            \/ k = 15 \/ k = 16 \/ k = 17 \/ k = 18 \/ k = 19 \/ k = 20 \/ k = 21
            \/ k = 22 \/ k = 23) as Hc by lia.
    repeat (destruct Hc as [-> | Hc]; [simpl; tauto|]). subst. simpl; tauto.
  - simpl. intros H.
    repeat (destruct H as [<- | H]; [split; [lia | reflexivity]|]).
    destruct H.
Qed.

Lemma time_of_minutes_half_hours :
  Forall (fun m => time_to_minutes (minutes_to_time m) = Returns m)
         (py_range (8 * 60) (20 * 60) 30).
Proof. rewrite py_range_half_hours. repeat constructor. Qed.

Lemma minutes_to_time_inj_half_hours (m m' : Z) :
  half_hour_start m -> half_hour_start m' ->
  minutes_to_time m = minutes_to_time m' -> m = m'.
Proof.
  intros H H' E.
  pose proof time_of_minutes_half_hours as F. rewrite Forall_forall in F.
  apply half_hour_start_range, list_elem_of_In, F in H.
  apply half_hour_start_range, list_elem_of_In, F in H'.
  rewrite E in H. congruence.
Qed.

(** ** The availability engine *)

Section engine.

Implicit Types (booked : list (gmap string pyval)) (b : gmap string pyval).

Lemma overlaps_interval es ee b b_start b_end :
  booking_interval b = Some (b_start, b_end) ->
  overlaps es ee b = Returns ((es <? b_end) && (ee >? b_start)).
Proof.
  unfold booking_interval, overlaps, dict_item. intros H.
  destruct (b !! "time") as [[| | |t|]|]; try discriminate.
  destruct (b !! "duration") as [[| |n| |]|]; try discriminate.
  simpl. destruct (time_to_minutes t) as [s|]; [|discriminate].
  injection H as <- <-. reflexivity.
Qed.

Lemma any_overlap_existsb es ee booked :
  Forall well_formed_booking booked ->
  any_overlap es ee booked = Returns (existsb (overlapsb es ee) booked).
Proof.
  induction 1 as [|b booked [[bs be] Hb] _ IH]; [reflexivity|].
  simpl. rewrite (overlaps_interval _ _ _ _ _ Hb). unfold overlapsb. rewrite Hb.
  simpl. destruct ((es <? be) && (ee >? bs)); [reflexivity | exact IH].
Qed.

Lemma slot_loop_filter booked dur buffer (ms : list Z) :
  Forall well_formed_booking booked ->
  Forall (fun m => time_to_minutes (minutes_to_time m) = Returns m) ms ->
  slot_loop booked dur buffer (minutes_to_time <$> ms)
  = Returns (minutes_to_time <$> List.filter (acceptb booked dur buffer) ms).
Proof.
  intros Hwf. induction 1 as [|m ms Hm _ IH]; [reflexivity|].
  rewrite fmap_cons. cbn [slot_loop]. rewrite Hm. cbn [mbind outcome_bind].
  unfold acceptb at 1. cbn [List.filter].
  change (acceptb booked dur buffer m)
    with (negb (m + dur >? 20 * 60)
          && negb (existsb (overlapsb (Z.max 0 (m - buffer)) (m + dur + buffer)) booked)).
  destruct (m + dur >? 20 * 60) eqn:Hend; [exact IH|].
  rewrite IH.
  replace (if m - buffer <? 0 then 0 else m - buffer) with (Z.max 0 (m - buffer))
    by (destruct (Z.ltb_spec (m - buffer) 0); lia).
  rewrite (any_overlap_existsb _ _ _ Hwf). cbn [mbind outcome_bind negb andb].
  destruct (existsb _ booked); reflexivity.
Qed.


Lemma half_hour_time_in_filter (P : Z -> bool) (m : Z) :
  half_hour_start m ->
  In (minutes_to_time m)
     (minutes_to_time <$> List.filter P (py_range (8 * 60) (20 * 60) 30))
  <-> P m = true.
Proof.
  intros Hm. rewrite <- list_elem_of_In, list_elem_of_fmap. split.
  - intros (m' & E & Hin). apply list_elem_of_In, filter_In in Hin as [Hin HP].
    apply half_hour_start_range in Hin.
    rewrite (minutes_to_time_inj_half_hours m m' Hm Hin E). exact HP.
  - intros HP. exists m. split; [reflexivity|].
    apply list_elem_of_In, filter_In. split; [|exact HP].
    apply half_hour_start_range, Hm.
Qed.

(** The engine on a day whose bookings are well formed: the candidate
    starts that pass the window test and the overlap test, in the order of
    generation. *)
Lemma generate_available_slots_filter f db date dur session_type booked :
  get_appointments_for_date f db (PStr date) = Returns booked ->
  Forall well_formed_booking booked ->
  generate_available_slots f db date dur session_type
  = Returns (minutes_to_time <$>
      List.filter
        (acceptb booked dur
           (if String.eqb session_type "Student Location" then 30 else 0))
        (py_range (8 * 60) (20 * 60) 30)).
Proof.
  intros Hget Hwf. unfold generate_available_slots. rewrite Hget.
  cbn [mbind outcome_bind]. unfold possible.
  apply slot_loop_filter; [exact Hwf | exact time_of_minutes_half_hours].
Qed.

End engine.

(** ** The store *)

Section store.

Implicit Types (db : database) (d : gmap string pyval) (r : row).

Lemma bind_param_raises v e :
  bind_param v = Raises e -> e = OverflowError \/ e = InterfaceError.
Proof.
  destruct v as [| |n| |]; simpl; try discriminate.
  - destruct ((- 2 ^ 63 <=? n) && (n <? 2 ^ 63)); [discriminate|].
    intros [= <-]. now left.
  - intros [= <-]. now right.
Qed.

Lemma integer_literal_range s n :
  integer_literal s = Some n ->
  (- 2 ^ 63 <=? n) && (n <? 2 ^ 63) = true.
Proof.
  unfold integer_literal.
  destruct (match sqlite_skip_spaces s with
            | String "-" r => Z.opp <$> sqlite_digits None r
            | String "+" r => sqlite_digits None r
            | r => sqlite_digits None r
            end) as [k|]; [|discriminate].
  destruct ((- 2 ^ 63 <=? k) && (k <? 2 ^ 63)) eqn:E; [|discriminate].
  intros [= <-]. exact E.
Qed.

Lemma settled_affinity (a : affinity) v x :
  bind_param v = Returns x -> settled a (apply_affinity a x).
Proof.
  intros Hb. unfold settled.
  assert (bind_param (py_of_sql x) = Returns x) as Hx.
  { destruct v as [|b|n|s|c]; simpl in Hb; try discriminate.
    - injection Hb as <-. reflexivity.
    - injection Hb as <-. destruct b; reflexivity.
    - destruct ((- 2 ^ 63 <=? n) && (n <? 2 ^ 63)) eqn:E; [|discriminate].
      injection Hb as <-. simpl. rewrite E. reflexivity.
    - injection Hb as <-. reflexivity. }
  destruct a, x as [|n|s]; simpl; try (split; [reflexivity | exact Hx]).
  - split; reflexivity.
  - destruct (integer_literal s) as [n|] eqn:E; simpl.
    + split; [reflexivity|]. rewrite (integer_literal_range _ _ E). reflexivity.
    + rewrite E. split; reflexivity.
Qed.

Lemma slot_taken_violates rows r :
  slot_taken rows r = true <-> violates_unique rows r.
Proof.
  unfold slot_taken, violates_unique. rewrite existsb_exists.
  split; intros (r' & Hin & H); exists r'; (split; [exact Hin|]).
  - apply bool_decide_eq_true in H. exact H.
  - apply bool_decide_eq_true. exact H.
Qed.

(** One [bind_param] of a statement: either it yields a value and the
    statement goes on, or it raises an error that is no [IntegrityError]. *)
Local Ltac bind_step :=
  cbn [mbind outcome_bind];
  match goal with
  | |- context [mbind _ (bind_param ?v)] =>
      let H := fresh "Hbind" in
      destruct (bind_param v) eqn:H;
      [|apply bind_param_raises in H as [-> | ->]; reflexivity];
      cbn [mbind outcome_bind]
  end.

(** [save_appointment] when the file can be opened and the table exists. *)
Lemma save_appointment_run now db d rows :
  appointments db = Some rows ->
  save_appointment NoFault now db d =
    match row_to_insert now db d with
    | Returns r =>
        if negb (not_null_ok r) then (Returns (false, slot_taken_message), db)
        else if slot_taken rows r then (Returns (false, slot_taken_message), db)
        else (Returns (true, saved_message),
              {| appointments := Some (rows ++ [r]);
                 sqlite_sequence := sqlite_sequence db + 1 |})
    | Raises _ => (Returns (false, save_failed_message), db)
    end.
Proof.
  intros Hrows.
  unfold save_appointment, row_to_insert, execute, insert_row, dict_item.
  cbn [get_db_connection]. rewrite Hrows.
  destruct (d !! "name") as [vn|]; [|reflexivity].
  destruct (d !! "date") as [vd|]; [|reflexivity].
  destruct (d !! "time") as [vt|]; [|reflexivity].
  destruct (d !! "duration") as [vu|]; [|reflexivity].
  destruct (d !! "lesson_type") as [vl|]; [|reflexivity].
  do 7 bind_step.
  destruct (negb (not_null_ok _)); [reflexivity|].
  destruct (slot_taken rows _); reflexivity.
Qed.

(** [save_appointment] when the statement cannot run: the file is left
    alone and the answer is a failure. *)
Lemma save_appointment_no_run f now db d :
  f <> NoFault \/ appointments db = None ->
  exists o, save_appointment f now db d = (o, db)
    /\ forall msg, o <> Returns (true, msg).
Proof.
  intros H. unfold save_appointment, execute, dict_item.
  destruct f; cbn [get_db_connection].
  - destruct H as [H|H]; [congruence|]. rewrite H.
    destruct (d !! "name"); [|eexists; split; [reflexivity | discriminate]].
    destruct (d !! "date"); [|eexists; split; [reflexivity | discriminate]].
    destruct (d !! "time"); [|eexists; split; [reflexivity | discriminate]].
    destruct (d !! "duration"); [|eexists; split; [reflexivity | discriminate]].
    destruct (d !! "lesson_type"); eexists; (split; [reflexivity | discriminate]).
  - eexists; split; [reflexivity | discriminate].
  - destruct (d !! "name"); [|eexists; split; [reflexivity | discriminate]].
    destruct (d !! "date"); [|eexists; split; [reflexivity | discriminate]].
    destruct (d !! "time"); [|eexists; split; [reflexivity | discriminate]].
    destruct (d !! "duration"); [|eexists; split; [reflexivity | discriminate]].
    destruct (d !! "lesson_type"); eexists; (split; [reflexivity | discriminate]).
Qed.

(** The two ways a call to [save_appointment] can end: a failure that
    leaves the file as it was, or one new row. *)
Lemma save_appointment_cases f now db d :
  (exists o, save_appointment f now db d = (o, db)
     /\ forall msg, o <> Returns (true, msg))
  \/ (exists rows r,
        f = NoFault /\ appointments db = Some rows
        /\ row_to_insert now db d = Returns r
        /\ not_null_ok r = true /\ slot_taken rows r = false
        /\ save_appointment f now db d
           = (Returns (true, saved_message),
              {| appointments := Some (rows ++ [r]);
                 sqlite_sequence := sqlite_sequence db + 1 |})).
Proof.
  destruct (decide (f = NoFault)) as [->|Hf];
    [|left; apply save_appointment_no_run; now left].
  destruct (appointments db) as [rows|] eqn:Hrows;
    [|left; apply save_appointment_no_run; now right].
  rewrite (save_appointment_run now db d rows Hrows).
  destruct (row_to_insert now db d) as [r|e];
    [|left; eexists; split; [reflexivity | discriminate]].
  destruct (not_null_ok r) eqn:Hnn; cbn [negb];
    [|left; eexists; split; [reflexivity | discriminate]].
  destruct (slot_taken rows r) eqn:Hst;
    [left; eexists; split; [reflexivity | discriminate]|].
  right. exists rows, r. repeat split; try reflexivity; assumption.
Qed.

Lemma save_appointment_success f now db d msg db' :
  save_appointment f now db d = (Returns (true, msg), db') ->
  exists rows r,
    f = NoFault /\ appointments db = Some rows
    /\ row_to_insert now db d = Returns r
    /\ not_null_ok r = true /\ slot_taken rows r = false
    /\ msg = saved_message
    /\ db' = {| appointments := Some (rows ++ [r]);
                sqlite_sequence := sqlite_sequence db + 1 |}.
Proof.
  intros H.
  destruct (save_appointment_cases f now db d)
    as [(o & E & Hne) | (rows & r & Hf & Hrows & Hr & Hnn & Hst & E)];
    rewrite E in H.
  - injection H as -> _. now destruct (Hne msg).
  - injection H as <- <-. exists rows, r. repeat split; assumption.
Qed.

Lemma row_to_insert_inv now db d r :
  row_to_insert now db d = Returns r ->
  exists vn vd vt vu vl n e p dd t u l,
    d !! "name" = Some vn /\ d !! "date" = Some vd /\ d !! "time" = Some vt
    /\ d !! "duration" = Some vu /\ d !! "lesson_type" = Some vl
    /\ bind_param vn = Returns n
    /\ bind_param (dict_get_default d "email" (PStr "")) = Returns e
    /\ bind_param (dict_get_default d "phone" (PStr "")) = Returns p
    /\ bind_param vd = Returns dd /\ bind_param vt = Returns t
    /\ bind_param vu = Returns u /\ bind_param vl = Returns l
    /\ r = new_row now db n e p dd t u l.
Proof.
  unfold row_to_insert, dict_item.
  destruct (d !! "name") as [vn|]; [|discriminate].
  destruct (d !! "date") as [vd|]; [|discriminate].
  destruct (d !! "time") as [vt|]; [|discriminate].
  destruct (d !! "duration") as [vu|]; [|discriminate].
  destruct (d !! "lesson_type") as [vl|]; [|discriminate].
  cbn [mbind outcome_bind].
  destruct (bind_param vn) as [n|] eqn:Hn; [|discriminate].
  cbn [mbind outcome_bind].
  destruct (bind_param (dict_get_default d "email" _)) as [e|] eqn:He; [|discriminate].
  cbn [mbind outcome_bind].
  destruct (bind_param (dict_get_default d "phone" _)) as [p|] eqn:Hp; [|discriminate].
  cbn [mbind outcome_bind].
  destruct (bind_param vd) as [dd|] eqn:Hd; [|discriminate].
  cbn [mbind outcome_bind].
  destruct (bind_param vt) as [t|] eqn:Ht; [|discriminate].
  cbn [mbind outcome_bind].
  destruct (bind_param vu) as [u|] eqn:Hu; [|discriminate].
  cbn [mbind outcome_bind].
  destruct (bind_param vl) as [l|] eqn:Hl; [|discriminate].
  cbn [mbind outcome_bind]. intros [= <-].
  exists vn, vd, vt, vu, vl, n, e, p, dd, t, u, l. repeat split; assumption.
Qed.

Lemma row_to_insert_stored now db d r :
  row_to_insert now db d = Returns r -> not_null_ok r = true -> stored_row r.
Proof.
  intros H Hnn.
  apply row_to_insert_inv in H
    as (vn & vd & vt & vu & vl & n & e & p & dd & t & u & l
        & _ & _ & _ & _ & _ & _ & _ & _ & Hd & Ht & Hu & _ & ->).
  split; [exact Hnn|]. cbn [new_row row_date row_time row_duration].
  repeat split; eapply settled_affinity; eassumption.
Qed.

(** A new row whose (date, time, duration) is that of a stored row takes
    the slot of that row. *)
Lemma row_to_insert_same_slot now db d r0 r :
  row_to_insert now db d = Returns r0 -> stored_row r -> same_slot d r ->
  slot_of r0 = slot_of r.
Proof.
  intros H (_ & [Ad Bd] & [At Bt] & [Au Bu]) (Sd & St & Su).
  apply row_to_insert_inv in H
    as (vn & vd & vt & vu & vl & n & e & p & dd & t & u & l
        & _ & Ed & Et & Eu & _ & _ & _ & _ & Hd & Ht & Hu & _ & ->).
  rewrite Sd in Ed. rewrite St in Et. rewrite Su in Eu.
  injection Ed as <-. injection Et as <-. injection Eu as <-.
  rewrite Bd in Hd. rewrite Bt in Ht. rewrite Bu in Hu.
  injection Hd as <-. injection Ht as <-. injection Hu as <-.
  unfold slot_of. cbn [new_row row_date row_time row_duration].
  rewrite Ad, At, Au. reflexivity.
Qed.

Lemma store_invariant_insert db rows r :
  store_invariant db -> appointments db = Some rows ->
  stored_row r -> slot_taken rows r = false ->
  store_invariant {| appointments := Some (rows ++ [r]);
                     sqlite_sequence := sqlite_sequence db + 1 |}.
Proof.
  intros Hinv Hrows Hr Hfree rows' [= <-].
  destruct (Hinv rows Hrows) as [Hnd Hall]. split.
  - rewrite fmap_app. apply NoDup_app. split; [exact Hnd|]. split.
    + intros x Hx Hx'. apply list_elem_of_fmap in Hx as (r' & -> & Hin).
      apply list_elem_of_singleton in Hx'.
      apply not_true_iff_false in Hfree. apply Hfree, slot_taken_violates.
      exists r'. split; [apply list_elem_of_In, Hin | exact Hx'].
    + apply NoDup_singleton.
  - apply Forall_app. split; [exact Hall|]. constructor; [exact Hr | constructor].
Qed.

Lemma store_invariant_save f now db d :
  store_invariant db -> store_invariant (save_appointment f now db d).2.
Proof.
  intros Hinv.
  destruct (save_appointment_cases f now db d)
    as [(o & -> & _) | (rows & r & _ & Hrows & Hr & Hnn & Hst & ->)];
    cbn [snd]; [exact Hinv|].
  eauto using store_invariant_insert, row_to_insert_stored.
Qed.

Lemma store_invariant_init f db :
  store_invariant db -> store_invariant (init_db f db).2.
Proof.
  intros Hinv. unfold init_db.
  destruct f; cbn [get_db_connection snd]; try exact Hinv.
  unfold create_table. destruct (appointments db) eqn:E; [exact Hinv|].
  intros rows [= <-]. split; constructor.
Qed.

(** A request changes the database file, if at all, by one call to
    [save_appointment]. *)
Lemma submit_appointment_db c s data :
  site_db (submit_appointment c s data).2 = site_db s
  \/ exists d, site_db (submit_appointment c s data).2
               = (save_appointment (save_fault c) (clock c) (site_db s) d).2.
Proof.
  unfold submit_appointment.
  destruct (stripped_name data) as [name|]; [|now left].
  destruct (bool_decide _); [now left|].
  destruct (is_slot_available _ _ _ _ _) as [[|]|]; [|now left|now left].
  right.
  match goal with
  | |- context [save_appointment ?f ?n ?db ?d] =>
      exists d; destruct (save_appointment f n db d) as [[[[|] m]|e] db']
  end; [destruct (send_booking_email _ _ _)| |]; reflexivity.
Qed.

Lemma store_invariant_step s s' :
  step s s' -> store_invariant (site_db s) -> store_invariant (site_db s').
Proof.
  intros [f s0 | f now s0 d | c s0 data] Hinv; cbn [site_db].
  - now apply store_invariant_init.
  - now apply store_invariant_save.
  - destruct (submit_appointment_db c s0 data) as [-> | [d ->]];
      [exact Hinv | now apply store_invariant_save].
Qed.

Lemma reachable_store_invariant s :
  reachable s -> store_invariant (site_db s).
Proof.
  unfold reachable. intros H.
  refine (rtc_ind_r (R := step) (fun s => store_invariant (site_db s))
            {| site_db := fresh_db; outbox := [] |} _ _ s H).
  - intros rows. discriminate.
  - intros s1 s2 _ Hstep IH. exact (store_invariant_step s1 s2 Hstep IH).
Qed.

(** ** Reading the store *)

Lemma get_appointments_for_date_run db rows v x :
  appointments db = Some rows -> bind_param v = Returns x ->
  get_appointments_for_date NoFault db v
  = Returns (dict_of_row <$> select_date rows x).
Proof.
  intros Hrows Hb. unfold get_appointments_for_date, execute.
  cbn [get_db_connection mbind outcome_bind]. rewrite Hrows, Hb. reflexivity.
Qed.

(** A statement that fails inside the [try] reads as an empty day. *)
Lemma get_appointments_for_date_execute_fault db v :
  get_appointments_for_date ExecuteFault db v = Returns [].
Proof. reflexivity. Qed.

Lemma get_appointments_for_date_no_table db v :
  appointments db = None -> get_appointments_for_date NoFault db v = Returns [].
Proof.
  intros H. unfold get_appointments_for_date, execute.
  cbn [get_db_connection mbind outcome_bind]. rewrite H. reflexivity.
Qed.

(** The engine on an empty list of bookings: every candidate start that
    ends by 20:00. *)
Lemma generate_available_slots_empty f db date dur session_type :
  get_appointments_for_date f db (PStr date) = Returns [] ->
  generate_available_slots f db date dur session_type
  = Returns (minutes_to_time <$>
      List.filter (fun m => negb (m + dur >? 20 * 60))
                  (py_range (8 * 60) (20 * 60) 30)).
Proof.
  intros H.
  rewrite (generate_available_slots_filter f db date dur session_type [] H)
    by constructor.
  do 2 f_equal. apply filter_ext. intros m. unfold acceptb. cbn [existsb negb].
  apply andb_true_r.
Qed.

End store.

(** * The claims *)

Lemma booked_site_reachable : reachable booked_site.
Proof.
  unfold reachable.
  eapply rtc_l; [exact (step_init NoFault {| site_db := fresh_db; outbox := [] |})|].
  eapply rtc_l; [|apply rtc_refl].
  exact (step_save NoFault sample_now {| site_db := opened_db; outbox := [] |}
           sample_booking).
Qed.

Lemma booked_db_row :
  exists r, appointments booked_db = Some [r] /\ same_slot sample_rival r.
Proof. eexists. split; [reflexivity|]. repeat split; reflexivity. Qed.

(** C1. Store uniqueness invariant.  In every reachable state no two rows of
    the appointments table have the same (date, time, duration), whatever
    their lesson types; and a call to [save_appointment] with the (date,
    time, duration) of a stored appointment fails (it returns no success,
    under any storage condition) and leaves the database as it was. *)
Theorem store_slot_uniqueness (s : site) :
  reachable s ->
  unique_slots (site_db s)
  /\ forall f now d rows r,
       appointments (site_db s) = Some rows -> In r rows -> same_slot d r ->
       exists o, save_appointment f now (site_db s) d = (o, site_db s)
                 /\ forall msg, o <> Returns (true, msg).
Proof.
  intros Hreach. pose proof (reachable_store_invariant s Hreach) as Hinv. split.
  - intros rows i j r r' Hrows Hi Hj Heq.
    destruct (Hinv rows Hrows) as [Hnd _].
    apply (proj1 (NoDup_alt _) Hnd i j (slot_of r)).
    + rewrite list_lookup_fmap, Hi. reflexivity.
    + rewrite list_lookup_fmap, Hj, Heq. reflexivity.
  - intros f now d rows r Hrows Hin Hsame.
    destruct (save_appointment_cases f now (site_db s) d)
      as [H | (rows' & r0 & _ & Hrows' & Hr0 & _ & Hfree & _)]; [exact H|].
    exfalso. rewrite Hrows in Hrows'. injection Hrows' as <-.
    destruct (Hinv rows Hrows) as [_ Hall].
    rewrite Forall_forall in Hall.
    pose proof (Hall r (proj2 (list_elem_of_In _ _) Hin)) as Hstored.
    apply not_true_iff_false in Hfree. apply Hfree, slot_taken_violates.
    exists r. split; [exact Hin|].
    symmetry. exact (row_to_insert_same_slot now (site_db s) d r0 r Hr0 Hstored Hsame).
Qed.

Lemma store_slot_uniqueness_witness :
  reachable booked_site
  /\ unique_slots booked_db
  /\ exists o,
       save_appointment NoFault sample_now booked_db sample_rival = (o, booked_db)
       /\ forall msg, o <> Returns (true, msg).
Proof.
  split; [exact booked_site_reachable|].
  destruct (store_slot_uniqueness booked_site booked_site_reachable) as [Hu Hsave].
  split; [exact Hu|].
  destruct booked_db_row as (r & Hrows & Hsame).
  exact (Hsave NoFault sample_now sample_rival [r] r Hrows (or_introl eq_refl) Hsame).
Defined.


Lemma booked_day_listed :
  get_appointments_for_date NoFault booked_db (PStr "2025-09-28") = Returns booked_day.
Proof. reflexivity. Qed.







(** C5. Empty-day reference result.  For a date whose list of bookings is
    empty and for any session type, a query of duration 60 returns the
    half-hour starts 08:00, 08:30, ..., 19:00, in this order. *)
Theorem empty_day_sixty (f : fault) (db : database) (date session_type : string) :
  get_appointments_for_date f db (PStr date) = Returns [] ->
  generate_available_slots f db date 60 session_type
  = Returns ["08:00"; "08:30"; "09:00"; "09:30"; "10:00"; "10:30"; "11:00";
             "11:30"; "12:00"; "12:30"; "13:00"; "13:30"; "14:00"; "14:30";
             "15:00"; "15:30"; "16:00"; "16:30"; "17:00"; "17:30"; "18:00";
             "18:30"; "19:00"].
Proof.
  intros Hget.
  rewrite (generate_available_slots_empty f db date 60 session_type Hget).
  reflexivity.
Qed.

Lemma empty_day_sixty_witness :
  generate_available_slots NoFault booked_db "2025-09-29" 60 "Teacher Location"
  = Returns ["08:00"; "08:30"; "09:00"; "09:30"; "10:00"; "10:30"; "11:00";
             "11:30"; "12:00"; "12:30"; "13:00"; "13:30"; "14:00"; "14:30";
             "15:00"; "15:30"; "16:00"; "16:30"; "17:00"; "17:30"; "18:00";
             "18:30"; "19:00"].
Proof.
  apply (empty_day_sixty NoFault booked_db "2025-09-29" "Teacher Location").
  reflexivity.
Defined.



(** C2. Error discrimination in save.  The claim does not hold of the code:
    [save_appointment] answers the slot-taken message to every
    [IntegrityError], and a NULL in a NOT NULL column is one.  Here the
    table is empty, so no insert can break UNIQUE(date, time, duration);
    the appointment has no lesson type, and the answer is the slot-taken
    message. *)
Theorem save_appointment_null_reported_as_slot_taken :
  appointments opened_db = Some []
  /\ (forall r, ~ violates_unique [] r)
  /\ sample_untyped !! "lesson_type" = Some PNone
  /\ save_appointment NoFault sample_now opened_db sample_untyped
     = (Returns (false, slot_taken_message), opened_db).
Proof.
  split; [reflexivity|]. split; [|split; reflexivity].
  intros r (r' & [] & _).
Qed.

(** The same through the route: a request without lesson_type passes the
    validation and the pre-check on the empty table, and is answered with
    the slot-taken message under the key [database]. *)
Example submit_without_lesson_type :
  submit_appointment
    {| check_fault := NoFault; save_fault := NoFault; clock := sample_now;
       mail_delivers := fun _ => true |}
    {| site_db := opened_db; outbox := [] |}
    (delete "lesson_type" sample_booking)
  = (Returns (Rejected {[ "database" := slot_taken_message ]}),
     {| site_db := opened_db; outbox := [] |}).
Proof. vm_compute. reflexivity. Qed.

(** When [save_appointment] answers the slot-taken message: the insert ran
    and broke a NOT NULL column or the UNIQUE constraint. *)
Lemma save_appointment_slot_taken_message now db d rows r :
  appointments db = Some rows -> row_to_insert now db d = Returns r ->
  (save_appointment NoFault now db d).1 = Returns (false, slot_taken_message)
  <-> not_null_ok r = false \/ violates_unique rows r.
Proof.
  intros Hrows Hr. rewrite (save_appointment_run now db d rows Hrows), Hr.
  rewrite <- slot_taken_violates.
  destruct (not_null_ok r); cbn [negb]; [|split; [now left | reflexivity]].
  destruct (slot_taken rows r); cbn [fst]; split.
  - now right.
  - reflexivity.
  - discriminate.
  - intros [H|H]; discriminate.
Qed.

Lemma head_filter_none {A : Type} (P : A -> bool) (l : list A) :
  head (List.filter P l) = None <-> forall x, In x l -> P x = false.
Proof.
  induction l as [|a l IH]; simpl.
  - split; [intros _ x [] | reflexivity].
  - destruct (P a) eqn:Ha; simpl.
    + split; [discriminate|]. intros H. specialize (H a (or_introl eq_refl)).
      congruence.
    + rewrite IH. split.
      * intros H x [<-|Hin]; [exact Ha | exact (H x Hin)].
      * intros H x Hin. apply H. now right.
Qed.

Lemma select_slot_books r (date time : string) (duration : Z) :
  sql_equal TEXT (row_date r) (SText date)
  && sql_equal TEXT (row_time r) (SText time)
  && sql_equal INTEGER (row_duration r) (SInteger duration) = true
  <-> books r date time duration.
Proof.
  unfold books, sql_equal. cbn [apply_affinity].
  rewrite !andb_true_iff, !bool_decide_eq_true. tauto.
Qed.

(** C7, as the code has it.  [is_slot_available] returns true exactly when
    its query runs and the table holds no appointment with this (date,
    time, duration); when the statement fails it returns false. *)
Theorem is_slot_available_iff (f : fault) (db : database)
    (date time : string) (duration : Z) :
  (is_slot_available f db (PStr date) (PStr time) (PInt duration) = Returns true
   <-> slot_query_runs f db duration /\ slot_free db date time duration)
  /\ is_slot_available ExecuteFault db (PStr date) (PStr time) (PInt duration)
     = Returns false.
Proof.
  split; [|reflexivity].
  unfold is_slot_available, slot_query_runs, slot_free, execute.
  destruct f; cbn [get_db_connection mbind outcome_bind];
    [|split; [discriminate | intros [[[=] _] _]]
     |split; [discriminate | intros [[[=] _] _]]].
  destruct (appointments db) as [rows|];
    [|split; [discriminate | intros [(_ & [x [=]] & _) _]]].
  cbn [bind_param mbind outcome_bind].
  destruct ((- 2 ^ 63 <=? duration) && (duration <? 2 ^ 63)) eqn:Hrange.
  - cbn [mbind outcome_bind].
    destruct (head (select_slot rows (SText date) (SText time) (SInteger duration)))
      as [r|] eqn:Hhead.
    + split; [discriminate|]. intros [_ Hfree]. exfalso.
      assert (head (select_slot rows (SText date) (SText time) (SInteger duration))
              <> None) as Hne by congruence.
      apply Hne, head_filter_none. intros x Hin.
      apply not_true_iff_false. intros Hx%select_slot_books.
      exact (Hfree rows x eq_refl Hin Hx).
    + split; [|reflexivity]. intros _. split.
      * split; [reflexivity|]. split; [now exists rows | lia].
      * intros rows' r [= <-] Hin Hb.
        apply head_filter_none with (x := r) in Hhead; [|exact Hin].
        apply select_slot_books in Hb. congruence.
  - cbn [mbind outcome_bind]. split; [discriminate|]. intros [(_ & _ & H) _]. lia.
Qed.

(** C7, as stated, fails: the statement raises, the function returns false,
    and the table holds no appointment at all. *)
Lemma is_slot_available_failed_read :
  ~ (is_slot_available ExecuteFault opened_db
       (PStr "2025-09-28") (PStr "10:00") (PInt 60) = Returns true
     <-> slot_free opened_db "2025-09-28" "10:00" 60).
Proof.
  intros [_ H].
  assert (slot_free opened_db "2025-09-28" "10:00" 60) as Hfree.
  { intros rows r [= <-] []. }
  specialize (H Hfree). discriminate H.
Qed.

(** C8, as stated, fails: [get_db_connection] is called before the [try],
    so when [sqlite3.connect] cannot open the file its error reaches the
    caller and no list is returned. *)
Lemma get_appointments_for_date_can_raise :
  ~ (exists booked,
       get_appointments_for_date ConnectFault opened_db (PStr "2025-09-28")
       = Returns booked).
Proof. intros [booked H]. discriminate H. Qed.

(** C8, as the code has it.  [get_appointments_for_date] raises only when
    the connection cannot be opened.  When the read fails after that (the
    statement raises, or the table is missing) it returns the empty list,
    and the availability query built on it returns what it returns on a
    day without bookings: every candidate start that ends by 20:00. *)
Theorem fail_open_reads (f : fault) (db : database) (date : string) (dur : Z)
    (session_type : string) :
  ((exists e, get_appointments_for_date f db (PStr date) = Raises e)
   <-> f = ConnectFault)
  /\ (f = ExecuteFault \/ (f = NoFault /\ appointments db = None) ->
      get_appointments_for_date f db (PStr date) = Returns []
      /\ exists available,
           generate_available_slots f db date dur session_type = Returns available
           /\ generate_available_slots NoFault opened_db date dur session_type
              = Returns available
           /\ forall m, half_hour_start m ->
                (In (minutes_to_time m) available <-> m + dur <= 20 * 60)).
Proof.
  split.
  - unfold get_appointments_for_date, execute.
    destruct f; cbn [get_db_connection mbind outcome_bind].
    + destruct (appointments db);
        (split; [intros [e H]; discriminate H | discriminate]).
    + split; [reflexivity | intros _; eexists; reflexivity].
    + split; [intros [e H]; discriminate H | discriminate].
  - intros Hfail.
    assert (get_appointments_for_date f db (PStr date) = Returns []) as Hget.
    { destruct Hfail as [-> | [-> Hnone]]; [reflexivity|].
      now apply get_appointments_for_date_no_table. }
    split; [exact Hget|]. eexists. split; [|split].
    + exact (generate_available_slots_empty f db date dur session_type Hget).
    + now apply generate_available_slots_empty.
    + intros m Hm. rewrite (half_hour_time_in_filter _ m Hm).
      rewrite negb_true_iff, <- not_true_iff_false, Z.gtb_gt. lia.
Qed.

Lemma fail_open_reads_witness :
  get_appointments_for_date ExecuteFault booked_db (PStr "2025-09-28") = Returns []
  /\ generate_available_slots ExecuteFault booked_db "2025-09-28" 60 "Online"
     = generate_available_slots NoFault opened_db "2025-09-28" 60 "Online".
Proof.
  destruct (fail_open_reads ExecuteFault booked_db "2025-09-28" 60 "Online")
    as [_ H].
  destruct (H (or_introl eq_refl)) as (Hget & available & E & E' & _).
  split; [exact Hget|]. rewrite E, E'. reflexivity.
Defined.



Lemma dict_get_default_lookup (d : gmap string pyval) k dflt v :
  d !! k = Some v -> dict_get_default d k dflt = v.
Proof. unfold dict_get_default. intros ->. reflexivity. Qed.

Lemma dict_of_row_fields (r : row) :
  dict_of_row r !! "name" = Some (py_of_sql (row_name r))
  /\ dict_of_row r !! "email" = Some (py_of_sql (row_email r))
  /\ dict_of_row r !! "phone" = Some (py_of_sql (row_phone r))
  /\ dict_of_row r !! "date" = Some (py_of_sql (row_date r))
  /\ dict_of_row r !! "time" = Some (py_of_sql (row_time r))
  /\ dict_of_row r !! "duration" = Some (py_of_sql (row_duration r))
  /\ dict_of_row r !! "lesson_type" = Some (py_of_sql (row_lesson_type r)).
Proof. repeat split; reflexivity. Qed.




(** ** Validation of a submission *)














(** On a name that is no string [.strip()] raises before anything is
    validated or stored. *)
Lemma submit_appointment_name_not_text (c : conditions) (s : site)
    (data : gmap string pyval) :
  ~ name_is_text data ->
  submit_appointment c s data = (Raises AttributeError, s).
Proof.
  unfold name_is_text, submit_appointment, stripped_name, dict_get_default.
  destruct (data !! "name") as [[| | |n|]|]; simpl; intros H;
    try reflexivity; now destruct H.
Qed.




(** * Further properties of the code *)

(** ** Times as text *)

Section times.

Lemma py_digits_acc (d : Decimal.uint) (acc : positive) :
  py_digits (Z.pos acc) true (NilEmpty.string_of_uint d)
  = Some (Z.pos (Pos.of_uint_acc d acc)).
Proof.
  revert acc. induction d; intros acc;
    cbn [NilEmpty.string_of_uint py_digits Pos.of_uint_acc];
    [reflexivity|..];
    match goal with
    | |- context [digit_of ?c] =>
        let v := eval vm_compute in (digit_of c) in
        change (digit_of c) with v
    end; cbv iota;
    match goal with
    | |- py_digits ?a true _ = Some (Z.pos (Pos.of_uint_acc _ ?b)) =>
        replace a with (Z.pos b) by lia
    end; apply IHd.
Qed.

Lemma py_digits_uint (d : Decimal.uint) (b : bool) :
  b = true \/ d <> Decimal.Nil ->
  py_digits 0 b (NilEmpty.string_of_uint d) = Some (Z.of_N (Pos.of_uint d)).
Proof.
  revert b. induction d; intros b Hb;
    cbn [NilEmpty.string_of_uint py_digits Pos.of_uint];
    [destruct Hb as [-> | H]; [reflexivity | now destruct H]|..];
    match goal with
    | |- context [digit_of ?c] =>
        let v := eval vm_compute in (digit_of c) in
        change (digit_of c) with v
    end; cbv iota; cbn [Z.mul Z.add Z.of_N];
    first [apply IHd; now left | apply py_digits_acc].
Qed.

Lemma all_chars_weaken (p q : ascii -> bool) (s : string) :
  (forall c, p c = true -> q c = true) ->
  all_chars p s = true -> all_chars q s = true.
Proof.
  intros Hpq. induction s as [|c s IH]; simpl; [reflexivity|].
  rewrite !andb_true_iff. intros [H1 H2]. split; [now apply Hpq | now apply IH].
Qed.

Lemma all_chars_app (p : ascii -> bool) (s s' : string) :
  all_chars p (s +:+ s') = all_chars p s && all_chars p s'.
Proof.
  induction s as [|c s IH]; simpl; [reflexivity|].
  rewrite IH. apply andb_assoc.
Qed.

Lemma uint_text_digits (d : Decimal.uint) :
  all_chars number_char (NilEmpty.string_of_uint d) = true.
Proof. induction d; simpl; [reflexivity | assumption..]. Qed.

Lemma decimal_chars (n : Z) : all_chars number_char (decimal n) = true.
Proof.
  unfold decimal, NilZero.string_of_int, NilZero.string_of_uint.
  destruct (Z.to_int n) as [d|d]; destruct d; try reflexivity;
    cbn [all_chars]; try apply uint_text_digits;
    apply (uint_text_digits (_ d)) || apply uint_text_digits.
Qed.

Lemma number_char_not_space (c : ascii) :
  number_char c = true -> py_isspace c = false.
Proof.
  destruct c as [[] [] [] [] [] [] [] []]; vm_compute; congruence.
Qed.

Lemma number_char_not_colon (c : ascii) :
  number_char c = true -> Ascii.eqb c ":" = false.
Proof.
  destruct c as [[] [] [] [] [] [] [] []]; vm_compute; congruence.
Qed.

Lemma strip_no_space (s : string) :
  all_chars (fun c => negb (py_isspace c)) s = true -> strip s = s.
Proof.
  intros H. unfold strip.
  assert (lstrip s = s) as ->.
  { destruct s as [|c s]; [reflexivity|]. simpl in *.
    apply andb_true_iff in H as [Hc _]. apply negb_true_iff in Hc.
    rewrite Hc. reflexivity. }
  induction s as [|c s IH]; [reflexivity|].
  simpl in *. apply andb_true_iff in H as [Hc Hs]. apply negb_true_iff in Hc.
  rewrite (IH Hs), Hc. destruct s; reflexivity.
Qed.

Lemma split_no_sep (sep : ascii) (s : string) :
  all_chars (fun c => negb (Ascii.eqb c sep)) s = true -> split sep s = [s].
Proof.
  induction s as [|c s IH]; simpl; [reflexivity|].
  rewrite andb_true_iff, negb_true_iff. intros [Hc Hs].
  rewrite Hc, (IH Hs). reflexivity.
Qed.

Lemma split_at_sep (sep : ascii) (s s' : string) :
  all_chars (fun c => negb (Ascii.eqb c sep)) s = true ->
  split sep (s +:+ String sep s') = s :: split sep s'.
Proof.
  induction s as [|c s IH]; simpl.
  - intros _. rewrite Ascii.eqb_refl. reflexivity.
  - rewrite andb_true_iff, negb_true_iff. intros [Hc Hs].
    rewrite Hc, (IH Hs). reflexivity.
Qed.

Lemma py_digits_pos (p : positive) (b : bool) :
  py_digits 0 b (NilEmpty.string_of_uint (Pos.to_uint p)) = Some (Z.pos p).
Proof.
  rewrite py_digits_uint by (right; apply DecimalPos.Unsigned.to_uint_nonnil).
  rewrite DecimalPos.Unsigned.of_to. reflexivity.
Qed.

Lemma uint_text_of_pos (p : positive) :
  NilZero.string_of_uint (Pos.to_uint p) = NilEmpty.string_of_uint (Pos.to_uint p)
  /\ exists c r, NilEmpty.string_of_uint (Pos.to_uint p) = String c r
                 /\ is_Some (digit_of c).
Proof.
  pose proof (DecimalPos.Unsigned.to_uint_nonnil p) as Hnil.
  destruct (Pos.to_uint p); [now destruct Hnil|..];
    (split; [reflexivity|]); do 2 eexists; (split; [reflexivity|]);
    vm_compute; eauto.
Qed.

Lemma strip_number_text (s : string) :
  all_chars number_char s = true -> strip s = s.
Proof.
  intros H. apply strip_no_space. revert H. apply all_chars_weaken.
  intros c Hc. now rewrite (number_char_not_space c Hc).
Qed.

Lemma py_int_digit_first (c : ascii) (r : string) :
  is_Some (digit_of c) -> all_chars number_char r = true ->
  py_int (String c r)
  = match py_digits 0 false (String c r) with
    | Some n => Returns n
    | None => Raises ValueError
    end.
Proof.
  intros [k Hk] Hr. unfold py_int. rewrite strip_number_text.
  - destruct c as [[] [] [] [] [] [] [] []];
      try reflexivity; vm_compute in Hk; discriminate Hk.
  - cbn [all_chars]. rewrite Hr. unfold number_char. rewrite Hk. reflexivity.
Qed.

Lemma py_int_minus_first (r : string) :
  all_chars number_char r = true ->
  py_int (String "-" r)
  = match Z.opp <$> py_digits 0 false r with
    | Some n => Returns n
    | None => Raises ValueError
    end.
Proof.
  intros Hr. unfold py_int. rewrite strip_number_text; [reflexivity|].
  cbn [all_chars]. rewrite Hr. reflexivity.
Qed.

(** [int] reads back the decimal text of every integer. *)
Lemma py_int_decimal (n : Z) : py_int (decimal n) = Returns n.
Proof.
  unfold decimal. destruct n as [|p|p]; cbn [Z.to_int NilZero.string_of_int].
  - reflexivity.
  - destruct (uint_text_of_pos p) as (-> & c & r & E & Hc).
    pose proof (uint_text_digits (Pos.to_uint p)) as Hd. rewrite E in Hd |- *.
    cbn [all_chars] in Hd. apply andb_true_iff in Hd as [_ Hd].
    rewrite (py_int_digit_first c r Hc Hd), <- E, py_digits_pos. reflexivity.
  - destruct (uint_text_of_pos p) as (-> & _).
    rewrite py_int_minus_first by apply uint_text_digits.
    rewrite py_digits_pos. reflexivity.
Qed.

Lemma decimal_negative_length (p : positive) :
  (2 <= String.length (decimal (Z.neg p)))%nat.
Proof.
  unfold decimal. cbn [Z.to_int NilZero.string_of_int String.length].
  destruct (uint_text_of_pos p) as (-> & c & r & -> & _). simpl. lia.
Qed.

(** [int] reads back what [{n:02d}] writes. *)
Lemma py_int_fmt_02d (n : Z) : py_int (fmt_02d n) = Returns n.
Proof.
  unfold fmt_02d. destruct (String.length (decimal n) <? 2)%nat eqn:Hlen;
    [|apply py_int_decimal].
  change ("0" +:+ ?s) with (String "0" s).
  rewrite py_int_digit_first by (eauto using decimal_chars; vm_compute; eauto).
  cbn [py_digits]. change (digit_of "0") with (Some 0). cbv iota.
  change (10 * 0 + 0) with 0.
  destruct n as [|p|p].
  - reflexivity.
  - unfold decimal. cbn [Z.to_int NilZero.string_of_int].
    destruct (uint_text_of_pos p) as (-> & _).
    rewrite py_digits_pos. reflexivity.
  - apply Nat.ltb_lt in Hlen. pose proof (decimal_negative_length p). lia.
Qed.

Lemma fmt_02d_chars (n : Z) : all_chars number_char (fmt_02d n) = true.
Proof.
  unfold fmt_02d. destruct (String.length (decimal n) <? 2)%nat;
    [rewrite all_chars_app|]; rewrite decimal_chars; reflexivity.
Qed.

Lemma fmt_02d_no_colon (n : Z) :
  all_chars (fun c => negb (Ascii.eqb c ":")) (fmt_02d n) = true.
Proof.
  generalize (fmt_02d_chars n). apply all_chars_weaken. intros c Hc.
  now rewrite (number_char_not_colon c Hc).
Qed.

Lemma length_split (sep : ascii) (s : string) :
  length (split sep s) = S (occurrences sep s).
Proof.
  induction s as [|c s IH]; simpl; [reflexivity|].
  destruct (Ascii.eqb c sep); simpl; [now rewrite IH|].
  destruct (split sep s) as [|h t]; simpl in *; [discriminate IH | exact IH].
Qed.

Lemma py_int_raises (s : string) (e : exn) :
  py_int s = Raises e -> e = ValueError.
Proof.
  unfold py_int.
  destruct (match strip s with
            | String "-" r => Z.opp <$> py_digits 0 false r
            | String "+" r => py_digits 0 false r
            | r => py_digits 0 false r
            end); [discriminate | now intros [= <-]].
Qed.

End times.

Lemma time_of_minutes_to_time (m : Z) :
  time_to_minutes (minutes_to_time m) = Returns m.
Proof.
  unfold time_to_minutes, minutes_to_time.
  change (":" +:+ ?s) with (String ":" s).
  rewrite split_at_sep by apply fmt_02d_no_colon.
  rewrite split_no_sep by apply fmt_02d_no_colon.
  rewrite !py_int_fmt_02d. cbn [mbind outcome_bind]. f_equal.
  pose proof (Z.div_mod m 60 ltac:(lia)). lia.
Qed.


(** X2. Errors of [time_to_minutes]: the only exception it raises is
    [ValueError], and it raises it for every text that does not hold
    exactly one colon. *)
Theorem time_to_minutes_errors (t : string) :
  (forall e, time_to_minutes t = Raises e -> e = ValueError)
  /\ (occurrences ":" t <> 1%nat -> time_to_minutes t = Raises ValueError).
Proof.
  unfold time_to_minutes. pose proof (length_split ":" t) as Hlen.
  destruct (split ":" t) as [|a [|b [|c l]]]; cbn [length] in Hlen.
  - split; [now intros e [= <-] | reflexivity].
  - split; [now intros e [= <-] | reflexivity].
  - split; [|intros H; lia].
    intros e. destruct (py_int a) as [h|e1] eqn:Ha; cbn [mbind outcome_bind].
    + destruct (py_int b) as [mi|e2] eqn:Hb; cbn [mbind outcome_bind];
        [discriminate|]. intros [= <-]. exact (py_int_raises b e2 Hb).
    + intros [= <-]. exact (py_int_raises a e1 Ha).
  - split; [now intros e [= <-] | reflexivity].
Qed.

Lemma time_to_minutes_errors_witness :
  time_to_minutes "1030" = Raises ValueError
  /\ time_to_minutes "10:30:00" = Raises ValueError.
Proof.
  split.
  - apply (proj2 (time_to_minutes_errors "1030")). discriminate.
  - apply (proj2 (time_to_minutes_errors "10:30:00")). discriminate.
Defined.

(** ** The availability engine, on any list of bookings *)

Section engine_any.

Implicit Types (booked : list (gmap string pyval)) (b : gmap string pyval).

Lemma any_overlap_false es ee booked :
  any_overlap es ee booked = Returns false ->
  forall b, In b booked -> overlaps es ee b = Returns false.
Proof.
  induction booked as [|b0 booked IH]; [intros _ b []|].
  cbn [any_overlap]. destruct (overlaps es ee b0) as [[|]|e] eqn:Hb0;
    cbn [mbind outcome_bind]; try discriminate.
  intros H b [<-|Hin]; [exact Hb0 | exact (IH H b Hin)].
Qed.

(** What it takes for a start to be in [available]. *)
Lemma slot_loop_offered booked dur buffer (starts available : list string) t :
  slot_loop booked dur buffer starts = Returns available ->
  In t available ->
  In t starts
  /\ exists m, time_to_minutes t = Returns m
       /\ m + dur <= 20 * 60
       /\ any_overlap (Z.max 0 (m - buffer)) (m + dur + buffer) booked
          = Returns false.
Proof.
  revert available. induction starts as [|start rest IH]; intros available.
  - intros [= <-] [].
  - cbn [slot_loop].
    destruct (time_to_minutes start) as [m|e] eqn:Hm;
      cbn [mbind outcome_bind]; [|discriminate].
    destruct (m + dur >? 20 * 60) eqn:Hend.
    + intros H Hin. destruct (IH available H Hin) as [Hr Hx].
      split; [now right | exact Hx].
    + replace (if m - buffer <? 0 then 0 else m - buffer)
        with (Z.max 0 (m - buffer))
        by (destruct (Z.ltb_spec (m - buffer) 0); lia).
      destruct (any_overlap _ _ booked) as [o|e] eqn:Ho;
        cbn [mbind outcome_bind]; [|discriminate].
      destruct (slot_loop booked dur buffer rest) as [tail|e] eqn:Hrest;
        cbn [mbind outcome_bind]; [|discriminate].
      intros [= <-] Hin.
      assert (In t tail -> In t (start :: rest)
                /\ exists m0, time_to_minutes t = Returns m0
                     /\ m0 + dur <= 20 * 60
                     /\ any_overlap (Z.max 0 (m0 - buffer)) (m0 + dur + buffer)
                          booked = Returns false) as Htail.
      { intros Ht. destruct (IH tail eq_refl Ht) as [Hr Hx].
        split; [now right | exact Hx]. }
      destruct o; [exact (Htail Hin)|].
      destruct Hin as [<-|Hin]; [|exact (Htail Hin)].
      split; [now left|]. exists m. split; [exact Hm|].
      split; [|exact Ho]. rewrite Z.gtb_ltb in Hend. apply Z.ltb_ge in Hend. lia.
Qed.

Lemma slot_loop_sublist booked dur buffer (starts available : list string) :
  slot_loop booked dur buffer starts = Returns available ->
  sublist available starts.
Proof.
  revert available. induction starts as [|start rest IH]; intros available.
  - intros [= <-]. constructor.
  - cbn [slot_loop].
    destruct (time_to_minutes start) as [m|e];
      cbn [mbind outcome_bind]; [|discriminate].
    destruct (m + dur >? 20 * 60).
    + intros H. apply sublist_cons, IH, H.
    + destruct (any_overlap _ _ booked) as [o|e];
        cbn [mbind outcome_bind]; [|discriminate].
      destruct (slot_loop booked dur buffer rest) as [tail|e];
        cbn [mbind outcome_bind]; [|discriminate].
      intros [= <-]. destruct o.
      * apply sublist_cons, IH. reflexivity.
      * apply sublist_skip, IH. reflexivity.
Qed.

Lemma possible_half_hours (t : string) :
  In t possible <-> exists m, half_hour_start m /\ t = minutes_to_time m.
Proof.
  unfold possible. rewrite <- list_elem_of_In, list_elem_of_fmap. split.
  - intros (m & -> & Hm). exists m. split; [|reflexivity].
    apply half_hour_start_range, list_elem_of_In, Hm.
  - intros (m & Hm & ->). exists m. split; [reflexivity|].
    apply list_elem_of_In, half_hour_start_range, Hm.
Qed.

Lemma possible_no_dup : NoDup possible.
Proof.
  unfold possible. apply NoDup_fmap_2_strong.
  - intros m m' Hm Hm' E. apply list_elem_of_In, half_hour_start_range in Hm, Hm'.
    exact (minutes_to_time_inj_half_hours m m' Hm Hm' E).
  - rewrite py_range_half_hours. refine (bool_decide_unpack _ _).
    vm_compute. exact I.
Qed.



End engine_any.

Lemma sublist_lookup {A : Type} (l k : list A) :
  sublist l k -> forall (j : nat) y, l !! j = Some y ->
  exists j' : nat, k !! j' = Some y.
Proof.
  induction 1 as [|x l k _ IH|x l k _ IH]; intros j y Hj.
  - discriminate Hj.
  - destruct j as [|j]; [exists 0%nat; exact Hj|].
    destruct (IH j y Hj) as [j' Hj']. exists (S j'). exact Hj'.
  - destruct (IH j y Hj) as [j' Hj']. exists (S j'). exact Hj'.
Qed.

Lemma sublist_lookup_order {A : Type} (l k : list A) :
  sublist l k -> forall (i j : nat) x y,
  (i < j)%nat -> l !! i = Some x -> l !! j = Some y ->
  exists i' j' : nat, (i' < j')%nat /\ k !! i' = Some x /\ k !! j' = Some y.
Proof.
  induction 1 as [|z l k Hs IH|z l k Hs IH]; intros i j x y Hij Hi Hj.
  - discriminate Hi.
  - destruct j as [|j]; [lia|]. destruct i as [|i].
    + destruct (sublist_lookup l k Hs j y Hj) as [j' Hj'].
      exists 0%nat, (S j'). split; [lia|]. split; [exact Hi | exact Hj'].
    + destruct (IH i j x y ltac:(lia) Hi Hj) as (i' & j' & H & Hi' & Hj').
      exists (S i'), (S j'). split; [lia|]. split; assumption.
  - destruct (IH i j x y Hij Hi Hj) as (i' & j' & H & Hi' & Hj').
    exists (S i'), (S j'). split; [lia|]. split; assumption.
Qed.

Lemma possible_lookup (i : nat) (t : string) :
  possible !! i = Some t -> t = minutes_to_time (480 + 30 * Z.of_nat i).
Proof.
  unfold possible, py_range. rewrite !list_lookup_fmap.
  destruct (seq 0 _ !! i) as [k|] eqn:Hk; [|discriminate].
  apply lookup_seq in Hk as [-> _]. now intros [= <-].
Qed.

(** X3. The slots come in the order of generation: whatever
    [generate_available_slots] returns is a sublist of the candidate
    starts 08:00, 08:30, ..., 19:30, so it has no duplicates and its times
    strictly increase. *)
Theorem available_in_order (f : fault) (db : database) (date : string) (dur : Z)
    (session_type : string) (available : list string) :
  generate_available_slots f db date dur session_type = Returns available ->
  sublist available possible
  /\ NoDup available
  /\ forall (i j : nat) t t', (i < j)%nat ->
       available !! i = Some t -> available !! j = Some t' ->
       exists m m', time_to_minutes t = Returns m
         /\ time_to_minutes t' = Returns m' /\ m < m'.
Proof.
  unfold generate_available_slots.
  destruct (get_appointments_for_date f db (PStr date)) as [booked|e];
    cbn [mbind outcome_bind]; [|discriminate].
  intros H%slot_loop_sublist. split; [exact H|]. split.
  - exact (sublist_NoDup _ _ possible_no_dup H).
  - intros i j t t' Hij Hi Hj.
    destruct (sublist_lookup_order _ _ H i j t t' Hij Hi Hj)
      as (i' & j' & Hij' & ->%possible_lookup & ->%possible_lookup).
    do 2 eexists. rewrite !time_of_minutes_to_time.
    split; [reflexivity|]. split; [reflexivity | lia].
Qed.

Lemma booked_day_offered :
  generate_available_slots NoFault booked_db "2025-09-28" 30 "Student Location"
  = Returns booked_day_offer.
Proof. vm_compute. reflexivity. Qed.

Lemma available_in_order_witness :
  sublist booked_day_offer possible /\ NoDup booked_day_offer.
Proof.
  destruct (available_in_order NoFault booked_db "2025-09-28" 30
              "Student Location" booked_day_offer booked_day_offered)
    as (H1 & H2 & _).
  split; [exact H1 | exact H2].
Defined.

Lemma offered_slot_clear (f : fault) (db : database) (date : string)
    (dur : Z) (session_type : string) (booked : list (gmap string pyval))
    (available : list string) (t : string) :
  get_appointments_for_date f db (PStr date) = Returns booked ->
  generate_available_slots f db date dur session_type = Returns available ->
  In t available ->
  exists m, half_hour_start m /\ t = minutes_to_time m
    /\ m + dur <= 20 * 60
    /\ forall b b_start b_end, In b booked ->
         booking_interval b = Some (b_start, b_end) ->
         ~ intervals_overlap m (m + dur) b_start b_end.
Proof.
  intros Hget. unfold generate_available_slots. rewrite Hget.
  cbn [mbind outcome_bind]. intros Hloop Hin.
  destruct (slot_loop_offered _ _ _ _ _ t Hloop Hin)
    as (Hposs & m' & Hm' & Hend & Hclear).
  apply possible_half_hours in Hposs as (m & Hm & ->).
  rewrite time_of_minutes_to_time in Hm'. injection Hm' as <-.
  exists m. repeat split; try apply Hm; try assumption.
  intros b bs be Hb Hint [H1 H2].
  pose proof (any_overlap_false _ _ _ Hclear b Hb) as Ho.
  rewrite (overlaps_interval _ _ b bs be Hint) in Ho. injection Ho as Ho.
  apply andb_false_iff in Ho. destruct Hm as [[Hlo _] _].
  destruct (String.eqb session_type "Student Location");
    destruct Ho as [Ho|Ho];
    first [apply Z.ltb_ge in Ho | rewrite Z.gtb_ltb in Ho; apply Z.ltb_ge in Ho];
    lia.
Qed.

(** X4. No offered slot overlaps a booking: every start that
    [generate_available_slots] returns is a half-hour start [m] that ends
    by 20:00 and whose own interval [[m, m + dur)] meets the interval of
    no appointment booked on that date. *)
Theorem offered_slot_is_free (f : fault) (db : database) (date : string)
    (dur : Z) (session_type : string) (booked : list (gmap string pyval))
    (available : list string) (t : string) :
  get_appointments_for_date f db (PStr date) = Returns booked ->
  generate_available_slots f db date dur session_type = Returns available ->
  In t available ->
  exists m, half_hour_start m /\ t = minutes_to_time m
    /\ m + dur <= 20 * 60
    /\ forall b b_start b_end, In b booked ->
         booking_interval b = Some (b_start, b_end) ->
         ~ intervals_overlap m (m + dur) b_start b_end.
Proof. exact (offered_slot_clear f db date dur session_type booked available t). Qed.

Lemma offered_slot_is_free_witness :
  exists m, half_hour_start m /\ "11:30" = minutes_to_time m
    /\ m + 30 <= 20 * 60
    /\ forall b b_start b_end, In b booked_day ->
         booking_interval b = Some (b_start, b_end) ->
         ~ intervals_overlap m (m + 30) b_start b_end.
Proof.
  apply (offered_slot_is_free NoFault booked_db "2025-09-28" 30
           "Student Location" booked_day booked_day_offer "11:30"
           booked_day_listed booked_day_offered).
  unfold booked_day_offer. simpl. tauto.
Defined.





(** The request [sample_noon] is accepted, and the availability of its day
    then raises [ValueError]. *)
Example noon_accepted_then_unavailable :
  (exists a m, (submit_appointment sample_conditions opened_site sample_noon).1
               = Returns (Accepted a m))
  /\ generate_available_slots NoFault (site_db noon_site) "2025-09-28" 60 "Online"
     = Raises ValueError.
Proof. split; [do 2 eexists|]; vm_compute; reflexivity. Qed.






(** ** The store and the engine together *)

Section store_engine.

Implicit Types (db : database) (d : gmap string pyval) (r : row).

Lemma select_date_text (rows : list row) (date : string) :
  select_date rows (SText date)
  = List.filter (fun r => bool_decide (row_date r = SText date)) rows.
Proof. reflexivity. Qed.

Lemma get_appointments_for_date_text db rows (date : string) :
  appointments db = Some rows ->
  get_appointments_for_date NoFault db (PStr date)
  = Returns (dict_of_row <$>
      List.filter (fun r => bool_decide (row_date r = SText date)) rows).
Proof.
  intros Hrows.
  now rewrite (get_appointments_for_date_run db rows (PStr date) (SText date) Hrows).
Qed.

(** Whatever is listed is a row of the table, read by [dict(row)], and has
    the date asked for. *)
Lemma get_appointments_for_date_listed (f : fault) db (date : string)
    (booked : list (gmap string pyval)) (b : gmap string pyval) :
  get_appointments_for_date f db (PStr date) = Returns booked -> In b booked ->
  exists r, In r (rows_of db) /\ row_date r = SText date /\ b = dict_of_row r.
Proof.
  unfold get_appointments_for_date, execute, rows_of.
  destruct f; cbn [get_db_connection mbind outcome_bind];
    [|discriminate|intros [= <-] []].
  destruct (appointments db) as [rows|]; [|intros [= <-] []].
  cbn [bind_param mbind outcome_bind default]. intros [= <-] Hin.
  apply list_elem_of_In, list_elem_of_fmap in Hin as (r & -> & Hr).
  rewrite select_date_text in Hr.
  apply list_elem_of_In, filter_In in Hr as [Hr Hdate].
  apply bool_decide_eq_true in Hdate. now exists r.
Qed.



End store_engine.

(** X8. The listing of a date is exact: every appointment that
    [get_appointments_for_date] lists is a stored row with that date, and
    when the read does not fail every stored row with that date is
    listed. *)
Theorem listing_is_the_day (f : fault) (db : database) (date : string)
    (booked : list (gmap string pyval)) :
  get_appointments_for_date f db (PStr date) = Returns booked ->
  (forall b, In b booked ->
     b !! "date" = Some (PStr date)
     /\ exists r, In r (rows_of db) /\ b = dict_of_row r)
  /\ (f = NoFault -> forall r, In r (rows_of db) -> row_date r = SText date ->
      In (dict_of_row r) booked).
Proof.
  intros Hget. split.
  - intros b Hb.
    destruct (get_appointments_for_date_listed f db date booked b Hget Hb)
      as (r & Hr & Hdate & ->).
    split; [|now exists r].
    destruct (dict_of_row_fields r) as (_ & _ & _ & -> & _). now rewrite Hdate.
  - intros -> r Hr Hdate. unfold rows_of in Hr.
    destruct (appointments db) as [rows|] eqn:Hrows; [|destruct Hr].
    rewrite (get_appointments_for_date_text db rows date Hrows) in Hget.
    injection Hget as <-.
    apply list_elem_of_In, list_elem_of_fmap. exists r. split; [reflexivity|].
    apply list_elem_of_In, filter_In. split; [exact Hr|].
    now apply bool_decide_eq_true.
Qed.

Lemma listing_is_the_day_witness :
  Forall (fun b => b !! "date" = Some (PStr "2025-09-28")
                   /\ exists r, In r (rows_of booked_db) /\ b = dict_of_row r)
         booked_day
  /\ Forall (fun r => row_date r = SText "2025-09-28" ->
                      In (dict_of_row r) booked_day)
            (rows_of booked_db).
Proof.
  destruct (listing_is_the_day NoFault booked_db "2025-09-28" booked_day
              booked_day_listed) as [Hlisted Hstored].
  split.
  - exact (proj2 (List.Forall_forall _ _) Hlisted).
  - exact (proj2 (List.Forall_forall _ _) (Hstored eq_refl)).
Defined.





(** ** The pre-check and the insert *)

Lemma sql_equal_not_null (a : affinity) (column param : sqlval) :
  apply_affinity a param <> SNull ->
  sql_equal a column param = bool_decide (column = apply_affinity a param).
Proof.
  unfold sql_equal. destruct (apply_affinity a param); [congruence|reflexivity..].
Qed.


Lemma select_slot_new_row (now : string) (db : database) (rows : list row)
    (n e p dd t u l : sqlval) :
  not_null_ok (new_row now db n e p dd t u l) = true ->
  select_slot rows dd t u
  = List.filter
      (fun r' => bool_decide (slot_of r' = slot_of (new_row now db n e p dd t u l)))
      rows.
Proof.
  intros Hnn. unfold not_null_ok in Hnn. rewrite !andb_true_iff in Hnn.
  destruct Hnn as [[[[_ Hd] Ht] Hu] _].
  apply negb_true_iff, bool_decide_eq_false in Hd, Ht, Hu.
  cbn [new_row row_date row_time row_duration] in Hd, Ht, Hu.
  unfold select_slot. apply filter_ext. intros r'.
  rewrite !sql_equal_not_null by assumption.
  unfold slot_of. cbn [new_row row_date row_time row_duration].
  apply Bool.eq_true_iff_eq.
  rewrite !andb_true_iff, !bool_decide_eq_true. split.
  - intros [[-> ->] ->]. reflexivity.
  - intros [= -> -> ->]. auto.
Qed.




(** ** Growth of the store *)

Section growth.

Implicit Types (db : database) (d : gmap string pyval) (r : row) (s : site).

Lemma save_appointment_rows f now db d :
  exists more,
    rows_of (save_appointment f now db d).2 = rows_of db ++ more
    /\ (forall rows, appointments db = Some rows ->
          appointments (save_appointment f now db d).2 = Some (rows ++ more))
    /\ (more = []
        \/ exists r, more = [r] /\ row_id r = sqlite_sequence db + 1
             /\ sqlite_sequence (save_appointment f now db d).2
                = sqlite_sequence db + 1)
    /\ (more = [] -> (save_appointment f now db d).2 = db).
Proof.
  destruct (save_appointment_cases f now db d)
    as [(o & -> & _) | (rows & r & _ & Hrows & Hr & _ & _ & ->)]; cbn [snd].
  - exists []. rewrite app_nil_r. split; [reflexivity|].
    split; [intros rows ->; now rewrite app_nil_r|]. split; [now left | reflexivity].
  - exists [r]. unfold rows_of. rewrite Hrows. cbn [appointments default].
    split; [reflexivity|]. split; [now intros rows' [= <-]|].
    split; [|discriminate]. right. exists r. split; [reflexivity|].
    apply row_to_insert_inv in Hr
      as (vn & vd & vt & vu & vl & n & e & p & dd & t & u & l & _ & _ & _ & _ & _
          & _ & _ & _ & _ & _ & _ & _ & ->).
    split; reflexivity.
Qed.

Lemma init_db_rows f db :
  rows_of (init_db f db).2 = rows_of db
  /\ sqlite_sequence (init_db f db).2 = sqlite_sequence db
  /\ (forall rows, appointments db = Some rows ->
        appointments (init_db f db).2 = Some rows).
Proof.
  unfold init_db, create_table, rows_of.
  destruct f; cbn [get_db_connection snd]; try (repeat split; now auto);
    destruct (appointments db) eqn:E; repeat split; try rewrite E; auto;
    discriminate.
Qed.

Lemma unchanged_rows s :
  exists more sent,
    rows_of (site_db s) = rows_of (site_db s) ++ more
    /\ outbox s = outbox s ++ sent
    /\ (forall rows, appointments (site_db s) = Some rows ->
          appointments (site_db s) = Some (rows ++ more)).
Proof.
  exists [], []. rewrite !app_nil_r. split; [reflexivity|].
  split; [reflexivity|]. intros rows ->. now rewrite app_nil_r.
Qed.

Lemma step_rows s s' :
  step s s' ->
  exists more sent,
    rows_of (site_db s') = rows_of (site_db s) ++ more
    /\ outbox s' = outbox s ++ sent
    /\ (forall rows, appointments (site_db s) = Some rows ->
          appointments (site_db s') = Some (rows ++ more)).
Proof.
  intros [f s0 | f now s0 d | c s0 data]; cbn [site_db outbox].
  - destruct (init_db_rows f (site_db s0)) as (H1 & _ & H3).
    exists [], []. rewrite !app_nil_r. split; [exact H1|]. split; [reflexivity|].
    intros rows Hrows. rewrite app_nil_r. exact (H3 rows Hrows).
  - destruct (save_appointment_rows f now (site_db s0) d) as (more & H1 & H2 & _).
    exists more, []. rewrite app_nil_r. auto.
  - unfold submit_appointment.
    destruct (stripped_name data) as [name|]; [|apply unchanged_rows].
    destruct (bool_decide _); [apply unchanged_rows|].
    destruct (is_slot_available _ _ _ _ _) as [[|]|];
      [|apply unchanged_rows..].
    match goal with
    | |- context [save_appointment ?f ?n ?db ?d] =>
        destruct (save_appointment_rows f n db d) as (more & H1 & H2 & _);
        destruct (save_appointment f n db d) as [[[[|] m]|e] db']
    end; cbn [snd] in *.
    + unfold send_booking_email. destruct (mail_delivers c _); cbn [snd site_db outbox].
      * eexists more, [_]. auto.
      * exists more, []. rewrite app_nil_r. auto.
    + exists more, []. rewrite app_nil_r. auto.
    + exists more, []. rewrite app_nil_r. auto.
Qed.

Lemma steps_rows s s' :
  rtc step s s' ->
  exists more sent,
    rows_of (site_db s') = rows_of (site_db s) ++ more
    /\ outbox s' = outbox s ++ sent
    /\ (forall rows, appointments (site_db s) = Some rows ->
          appointments (site_db s') = Some (rows ++ more)).
Proof.
  induction 1 as [s|s1 s2 s3 Hstep _ IH]; [apply unchanged_rows|].
  destruct (step_rows s1 s2 Hstep) as (m1 & o1 & R1 & O1 & A1).
  destruct IH as (m2 & o2 & R2 & O2 & A2).
  exists (m1 ++ m2), (o1 ++ o2). rewrite R2, R1, O2, O1, !app_assoc.
  split; [reflexivity|]. split; [reflexivity|].
  intros rows Hrows. rewrite (A2 _ (A1 rows Hrows)), app_assoc. reflexivity.
Qed.

End growth.

(** X12. Nothing is ever deleted or changed: along any sequence of calls to
    [init_db], [save_appointment] and [submit_appointment], the rows of the
    table and the notifications sent are kept in place and new ones are
    only appended. *)
Theorem store_only_grows (s s' : site) :
  rtc step s s' ->
  exists more sent,
    rows_of (site_db s') = rows_of (site_db s) ++ more
    /\ outbox s' = outbox s ++ sent.
Proof.
  intros H. destruct (steps_rows s s' H) as (more & sent & H1 & H2 & _).
  now exists more, sent.
Qed.

Lemma store_only_grows_witness :
  exists more sent,
    rows_of booked_db = rows_of fresh_db ++ more
    /\ @nil (gmap string pyval) = [] ++ sent.
Proof.
  exact (store_only_grows {| site_db := fresh_db; outbox := [] |} booked_site
           booked_site_reachable).
Defined.

Section identifiers.

Implicit Types (db : database) (s : site).

Lemma ids_sequential_save f now db d :
  ids_sequential db -> ids_sequential (save_appointment f now db d).2.
Proof.
  intros [Hseq Hids].
  destruct (save_appointment_rows f now db d)
    as (more & Hrows & _ & [-> | (r & -> & Hid & Hseq')] & Hsame).
  - rewrite (Hsame eq_refl). now split.
  - split.
    + rewrite Hseq', Hrows, length_app, Hseq. simpl. lia.
    + rewrite Hrows. intros i r' Hi.
      apply lookup_app_Some in Hi as [Hi | [Hlen Hi]]; [exact (Hids i r' Hi)|].
      destruct (i - length (rows_of db))%nat as [|k] eqn:Hk; [|discriminate Hi].
      injection Hi as <-. rewrite Hid, Hseq. lia.
Qed.

Lemma ids_sequential_init f db :
  ids_sequential db -> ids_sequential (init_db f db).2.
Proof.
  intros [Hseq Hids]. destruct (init_db_rows f db) as (H1 & H2 & _).
  unfold ids_sequential. rewrite H1, H2. now split.
Qed.

Lemma ids_sequential_step s s' :
  step s s' -> ids_sequential (site_db s) -> ids_sequential (site_db s').
Proof.
  intros [f s0 | f now s0 d | c s0 data] Hinv; cbn [site_db].
  - now apply ids_sequential_init.
  - now apply ids_sequential_save.
  - destruct (submit_appointment_db c s0 data) as [-> | [d ->]];
      [exact Hinv | now apply ids_sequential_save].
Qed.

End identifiers.

(** X13. Identifiers count the insertions: in every reachable state the
    rows of the table carry the identifiers 1, 2, 3, ... in the order in
    which they were inserted, so two different rows never share an
    identifier, and the AUTOINCREMENT counter is the number of rows. *)
Theorem identifiers_count_insertions (s : site) :
  reachable s ->
  ids_sequential (site_db s)
  /\ forall (i j : nat) r r',
       rows_of (site_db s) !! i = Some r -> rows_of (site_db s) !! j = Some r' ->
       row_id r = row_id r' -> i = j.
Proof.
  intros H.
  assert (ids_sequential (site_db s)) as Hinv.
  { unfold reachable in H.
    refine (rtc_ind_r (R := step) (fun s => ids_sequential (site_db s))
              {| site_db := fresh_db; outbox := [] |} _ _ s H).
    - split; [reflexivity | intros i r Hi; discriminate Hi].
    - intros s1 s2 _ Hstep IH. exact (ids_sequential_step s1 s2 Hstep IH). }
  split; [exact Hinv|]. destruct Hinv as [_ Hids].
  intros i j r r' Hi Hj E. apply Hids in Hi, Hj. lia.
Qed.

Lemma identifiers_count_insertions_witness :
  ids_sequential booked_db.
Proof.
  exact (proj1 (identifiers_count_insertions booked_site booked_site_reachable)).
Defined.

(** ** Requests *)

Section requests.

Implicit Types (c : conditions) (s : site) (data : gmap string pyval).

(** The two ways a request can end: it is not accepted and the site is as
    it was, or it is accepted, one row is appended and the notification is
    sent if the mail gets out. *)
Lemma submit_appointment_outcome c s data :
  ((submit_appointment c s data).2 = s
   /\ forall a m, (submit_appointment c s data).1 <> Returns (Accepted a m))
  \/ exists name rows r,
       passes_validation data name
       /\ is_slot_available (check_fault c) (site_db s) (dict_get data "date")
            (dict_get data "time") (dict_get data "duration") = Returns true
       /\ save_fault c = NoFault
       /\ appointments (site_db s) = Some rows
       /\ row_to_insert (clock c) (site_db s) (appointment_of data name) = Returns r
       /\ not_null_ok r = true /\ slot_taken rows r = false
       /\ submit_appointment c s data
          = (Returns (Accepted (appointment_of data name) saved_message),
             {| site_db := {| appointments := Some (rows ++ [r]);
                              sqlite_sequence := sqlite_sequence (site_db s) + 1 |};
                outbox := if mail_delivers c (appointment_of data name)
                          then outbox s ++ [appointment_of data name]
                          else outbox s |}).
Proof.
  unfold submit_appointment.
  destruct (stripped_name data) as [name|e] eqn:Hname;
    [|left; split; [reflexivity | discriminate]].
  case_bool_decide as Herr; [left; split; [reflexivity | discriminate]|].
  destruct (is_slot_available _ _ _ _ _) as [[|]|e] eqn:Hcheck;
    [|left; split; [reflexivity | discriminate]..].
  change (<["name":=PStr name]> _) with (appointment_of data name).
  destruct (save_appointment_cases (save_fault c) (clock c) (site_db s)
              (appointment_of data name))
    as [(o & -> & Hno) | (rows & r & Hf & Hrows & Hr & Hnn & Hfree & ->)].
  - left. destruct s as [db out]. cbn [site_db outbox] in *.
    destruct o as [[[|] m]|e]; [now destruct (Hno m)|..];
      (split; [reflexivity | discriminate]).
  - right. exists name, rows, r. unfold passes_validation, send_booking_email.
    destruct (mail_delivers c (appointment_of data name)); repeat split; auto.
Qed.


End requests.

(** X14. A request that is not accepted changes nothing: whenever
    [submit_appointment] answers anything but success (a rejection of any
    kind, or an exception), the database and the notifications sent are
    exactly as before. *)
Theorem unaccepted_request_changes_nothing (c : conditions) (s : site)
    (data : gmap string pyval) :
  (forall a m, (submit_appointment c s data).1 <> Returns (Accepted a m)) ->
  (submit_appointment c s data).2 = s.
Proof.
  intros Hno.
  destruct (submit_appointment_outcome c s data)
    as [[H _] | (name & rows & r & _ & _ & _ & _ & _ & _ & _ & E)]; [exact H|].
  rewrite E in Hno. now destruct (Hno (appointment_of data name) saved_message).
Qed.

Lemma unaccepted_request_changes_nothing_witness :
  (submit_appointment sample_conditions booked_site sample_rival).2 = booked_site.
Proof.
  apply (unaccepted_request_changes_nothing sample_conditions booked_site
           sample_rival).
  assert ((submit_appointment sample_conditions booked_site sample_rival).1
          = Returns (Rejected {[ "slot" := slot_taken_message ]})) as ->
    by (vm_compute; reflexivity).
  discriminate.
Defined.



(** X16. A notification that fails is silent: the answer of
    [submit_appointment] and the database it leaves do not depend on
    whether the mail gets out; only the list of notifications sent does. *)
Theorem notification_failure_is_silent (c c' : conditions) (s : site)
    (data : gmap string pyval) :
  check_fault c = check_fault c' -> save_fault c = save_fault c' ->
  clock c = clock c' ->
  (submit_appointment c s data).1 = (submit_appointment c' s data).1
  /\ site_db (submit_appointment c s data).2
     = site_db (submit_appointment c' s data).2.
Proof.
  intros Hcheck Hsave Hclock. unfold submit_appointment.
  rewrite <- Hcheck, <- Hsave, <- Hclock.
  destruct (stripped_name data) as [name|e]; [|split; reflexivity].
  destruct (bool_decide _); [split; reflexivity|].
  destruct (is_slot_available _ _ _ _ _) as [[|]|e]; [|split; reflexivity..].
  destruct (save_appointment _ _ _ _) as [[[[|] m]|e] db'];
    [|split; reflexivity..].
  unfold send_booking_email.
  destruct (mail_delivers c _), (mail_delivers c' _); split; reflexivity.
Qed.

Lemma notification_failure_is_silent_witness :
  (submit_appointment sample_conditions opened_site sample_booking).1
  = (submit_appointment
       {| check_fault := NoFault; save_fault := NoFault; clock := sample_now;
          mail_delivers := fun _ => false |} opened_site sample_booking).1.
Proof.
  exact (proj1 (notification_failure_is_silent sample_conditions
                  {| check_fault := NoFault; save_fault := NoFault;
                     clock := sample_now; mail_delivers := fun _ => false |}
                  opened_site sample_booking eq_refl eq_refl eq_refl)).
Defined.

Lemma head_filter_some {A : Type} (P : A -> bool) (l : list A) (x : A) :
  In x l -> P x = true -> exists y, head (List.filter P l) = Some y.
Proof.
  intros Hin HP. destruct (head (List.filter P l)) as [y|] eqn:Hhead;
    [now exists y|].
  rewrite head_filter_none in Hhead. rewrite (Hhead x Hin) in HP. discriminate HP.
Qed.

Lemma appointment_of_slot (data : gmap string pyval) (name : string) :
  appointment_of data name !! "date" = Some (dict_get data "date")
  /\ appointment_of data name !! "time" = Some (dict_get data "time")
  /\ appointment_of data name !! "duration" = Some (dict_get data "duration").
Proof. repeat split; reflexivity. Qed.

(** X17. An accepted request cannot be accepted twice: once
    [submit_appointment] has accepted a request, the same request is
    answered with the slot error by the pre-check, and changes nothing, in
    every later state of the site, whenever the connection of the
    pre-check opens. *)
Theorem accepted_request_cannot_repeat (c c' : conditions) (s s' : site)
    (data : gmap string pyval) (a : gmap string pyval) (m : string) :
  (submit_appointment c s data).1 = Returns (Accepted a m) ->
  rtc step (submit_appointment c s data).2 s' ->
  check_fault c' <> ConnectFault ->
  submit_appointment c' s' data
  = (Returns (Rejected {[ "slot" := slot_taken_message ]}), s').
Proof.
  intros Hacc Hsteps Hconn.
  destruct (submit_appointment_outcome c s data)
    as [[_ Hno] | (name & rows & r & [Hname Herr] & _ & _ & _ & Hr & Hnn & _ & E)];
    [now destruct (Hno a m)|].
  rewrite E in Hsteps. cbn [snd] in Hsteps.
  destruct (steps_rows _ _ Hsteps) as (more & _ & _ & _ & Hrows').
  specialize (Hrows' _ eq_refl). cbn [site_db] in Hrows'.
  apply row_to_insert_inv in Hr
    as (vn & vd & vt & vu & vl & n & e & p & dd & t & u & l
        & _ & Ed & Et & Eu & _ & _ & _ & _ & Bd & Bt & Bu & _ & ->).
  destruct (appointment_of_slot data name) as (Ad & At & Au).
  rewrite Ad in Ed. rewrite At in Et. rewrite Au in Eu.
  injection Ed as <-. injection Et as <-. injection Eu as <-.
  assert (is_slot_available (check_fault c') (site_db s') (dict_get data "date")
            (dict_get data "time") (dict_get data "duration") = Returns false)
    as Hcheck.
  { unfold is_slot_available, execute.
    destruct (check_fault c'); [|now destruct Hconn|reflexivity].
    cbn [get_db_connection mbind outcome_bind]. rewrite Hrows', Bd, Bt, Bu.
    cbn [mbind outcome_bind].
    rewrite (select_slot_new_row (clock c) (site_db s) _ n e p dd t u l Hnn).
    edestruct (head_filter_some
                 (fun r' => bool_decide
                    (slot_of r' = slot_of (new_row (clock c) (site_db s)
                                             n e p dd t u l))))
      as [y ->]; [| |reflexivity].
    - apply in_or_app. left. apply in_or_app. right. now left.
    - now apply bool_decide_eq_true. }
  unfold submit_appointment. rewrite Hname.
  rewrite bool_decide_eq_false_2 by (intros H; exact (H Herr)).
  rewrite Hcheck. reflexivity.
Qed.

Lemma accepted_request_cannot_repeat_witness :
  submit_appointment sample_conditions
    (submit_appointment sample_conditions opened_site sample_booking).2
    sample_booking
  = (Returns (Rejected {[ "slot" := slot_taken_message ]}),
     (submit_appointment sample_conditions opened_site sample_booking).2).
Proof.
  assert (exists a m,
            (submit_appointment sample_conditions opened_site sample_booking).1
            = Returns (Accepted a m)) as (a & m & Hacc)
    by (do 2 eexists; vm_compute; reflexivity).
  apply (accepted_request_cannot_repeat sample_conditions sample_conditions
           opened_site _ sample_booking a m Hacc).
  - apply rtc_refl.
  - discriminate.
Defined.

(** ** The availability route *)





(** ** Failures and defaults of [save_appointment] *)

Lemma row_to_insert_missing_key (now : string) (db : database)
    (d : gmap string pyval) (k : string) :
  In k ["name"; "date"; "time"; "duration"; "lesson_type"] -> d !! k = None ->
  row_to_insert now db d = Raises KeyError.
Proof.
  unfold row_to_insert, dict_item. cbn [In].
  intros [<-|[<-|[<-|[<-|[<-|[]]]]]] H;
    repeat match goal with
    | |- context [match d !! ?k' with _ => _ end] =>
        lazymatch type of H with
        | d !! k' = None => rewrite H; reflexivity
        | _ => destruct (d !! k'); [cbn [mbind outcome_bind]|reflexivity]
        end
    end.
Qed.

Lemma save_appointment_generic (f : fault) (now : string) (db : database)
    (d : gmap string pyval) :
  f <> ConnectFault ->
  f = ExecuteFault \/ appointments db = None
  \/ (exists e, row_to_insert now db d = Raises e) ->
  save_appointment f now db d = (Returns (false, save_failed_message), db).
Proof.
  intros Hconn Hwhy.
  destruct f; [|now destruct Hconn|].
  - destruct (appointments db) as [rows|] eqn:Hrows.
    + rewrite (save_appointment_run now db d rows Hrows).
      destruct Hwhy as [[=]|[[=]|[e ->]]]. reflexivity.
    + unfold save_appointment, execute, dict_item.
      cbn [get_db_connection]. rewrite Hrows.
      destruct (d !! "name"); [|reflexivity].
      destruct (d !! "date"); [|reflexivity].
      destruct (d !! "time"); [|reflexivity].
      destruct (d !! "duration"); [|reflexivity].
      destruct (d !! "lesson_type"); reflexivity.
  - unfold save_appointment, execute, dict_item. cbn [get_db_connection].
    destruct (d !! "name"); [|reflexivity].
    destruct (d !! "date"); [|reflexivity].
    destruct (d !! "time"); [|reflexivity].
    destruct (d !! "duration"); [|reflexivity].
    destruct (d !! "lesson_type"); reflexivity.
Qed.

Lemma row_to_insert_unbindable (now : string) (db : database)
    (d : gmap string pyval) (k : string) (v : pyval) (e : exn) :
  In k appointment_fields -> d !! k = Some v -> bind_param v = Raises e ->
  exists e', row_to_insert now db d = Raises e'.
Proof.
  intros Hk Hv Hbad.
  destruct (row_to_insert now db d) as [r|e'] eqn:Hr; [|now exists e'].
  exfalso. apply row_to_insert_inv in Hr
    as (vn & vd & vt & vu & vl & n & em & p & dd & t & u & l
        & En & Ed & Et & Eu & El & Bn & Be & Bp & Bd & Bt & Bu & Bl & _).
  unfold appointment_fields in Hk. cbn [In] in Hk.
  destruct Hk as [<-|[<-|[<-|[<-|[<-|[<-|[<-|[]]]]]]]].
  - rewrite En in Hv. injection Hv as <-. congruence.
  - rewrite (dict_get_default_lookup d "email" _ v Hv) in Be. congruence.
  - rewrite (dict_get_default_lookup d "phone" _ v Hv) in Bp. congruence.
  - rewrite Ed in Hv. injection Hv as <-. congruence.
  - rewrite Et in Hv. injection Hv as <-. congruence.
  - rewrite Eu in Hv. injection Hv as <-. congruence.
  - rewrite El in Hv. injection Hv as <-. congruence.
Qed.

(** X19. The generic failure of [save_appointment]: when the connection
    opens and a required key (name, date, time, duration, lesson_type) is
    missing, or one of the seven values cannot be bound (a list, a dict,
    an integer beyond 64 bits), or the statement fails, or the table does
    not exist, the answer is [(False, "Failed to save appointment. Please
    try again.")] and the database is unchanged. *)
Theorem save_appointment_generic_failure (f : fault) (now : string)
    (db : database) (d : gmap string pyval) :
  f <> ConnectFault ->
  (exists k, In k ["name"; "date"; "time"; "duration"; "lesson_type"]
             /\ d !! k = None)
  \/ (exists k v e, In k appointment_fields /\ d !! k = Some v
                    /\ bind_param v = Raises e)
  \/ f = ExecuteFault \/ appointments db = None ->
  save_appointment f now db d = (Returns (false, save_failed_message), db).
Proof.
  intros Hconn Hwhy. apply save_appointment_generic; [exact Hconn|].
  destruct Hwhy as [(k & Hk & Hnone) | [(k & v & e & Hk & Hv & Hbad) | [H|H]]];
    [| |now left|now (right; left)].
  - right. right. exists KeyError.
    exact (row_to_insert_missing_key now db d k Hk Hnone).
  - right. right. exact (row_to_insert_unbindable now db d k v e Hk Hv Hbad).
Qed.

Lemma save_appointment_generic_failure_witness :
  save_appointment NoFault sample_now booked_db (delete "time" sample_booking)
  = (Returns (false, save_failed_message), booked_db)
  /\ save_appointment NoFault sample_now booked_db
       (<["duration" := PInt (2 ^ 70)]> sample_booking)
     = (Returns (false, save_failed_message), booked_db).
Proof.
  split.
  - apply (save_appointment_generic_failure NoFault sample_now booked_db
             (delete "time" sample_booking)); [discriminate|].
    left. exists "time". split; [simpl; tauto | reflexivity].
  - apply (save_appointment_generic_failure NoFault sample_now booked_db
             (<["duration" := PInt (2 ^ 70)]> sample_booking)); [discriminate|].
    right. left. exists "duration", (PInt (2 ^ 70)), OverflowError.
    split; [unfold appointment_fields; simpl; tauto|]. split; reflexivity.
Defined.

(** X20. What a successful [save_appointment] writes: exactly one row is
    appended; its identifier is the AUTOINCREMENT counter plus one, its
    creation time is the clock, and an email or a phone that the caller
    left out is stored as the empty string. *)
Theorem save_appointment_writes (f : fault) (now : string) (db db' : database)
    (d : gmap string pyval) (msg : string) :
  save_appointment f now db d = (Returns (true, msg), db') ->
  msg = saved_message
  /\ exists r,
       rows_of db' = rows_of db ++ [r]
       /\ sqlite_sequence db' = sqlite_sequence db + 1
       /\ row_id r = sqlite_sequence db + 1
       /\ row_created_at r = SText now
       /\ (d !! "email" = None -> row_email r = SText "")
       /\ (d !! "phone" = None -> row_phone r = SText "").
Proof.
  intros Hsave. apply save_appointment_success in Hsave
    as (rows & r & _ & Hrows & Hr & _ & _ & -> & ->).
  split; [reflexivity|]. exists r. unfold rows_of. rewrite Hrows.
  cbn [appointments sqlite_sequence default].
  apply row_to_insert_inv in Hr
    as (vn & vd & vt & vu & vl & n & e & p & dd & t & u & l
        & _ & _ & _ & _ & _ & _ & Be & Bp & _ & _ & _ & _ & ->).
  cbn [new_row row_id row_created_at row_email row_phone].
  repeat split.
  - intros Hnone. unfold dict_get_default in Be. rewrite Hnone in Be.
    injection Be as <-. reflexivity.
  - intros Hnone. unfold dict_get_default in Bp. rewrite Hnone in Bp.
    injection Bp as <-. reflexivity.
Qed.

Lemma sample_without_email_saved :
  save_appointment NoFault sample_now opened_db (delete "email" sample_booking)
  = (Returns (true, saved_message),
     (save_appointment NoFault sample_now opened_db
        (delete "email" sample_booking)).2).
Proof. vm_compute. reflexivity. Qed.

Lemma save_appointment_writes_witness :
  exists r,
    rows_of (save_appointment NoFault sample_now opened_db
               (delete "email" sample_booking)).2 = rows_of opened_db ++ [r]
    /\ row_email r = SText "".
Proof.
  destruct (save_appointment_writes NoFault sample_now opened_db
              (save_appointment NoFault sample_now opened_db
                 (delete "email" sample_booking)).2
              (delete "email" sample_booking) saved_message
              sample_without_email_saved)
    as (_ & r & Hrows & _ & _ & _ & Hemail & _).
  exists r. split; [exact Hrows | exact (Hemail eq_refl)].
Defined.

(** X21. [init_db] never loses a booking: it raises only when the
    connection cannot be opened; in every case the rows and the
    AUTOINCREMENT counter are as before; when nothing fails the table
    exists afterwards; and on a database whose table exists it changes
    nothing, so running it at every start is harmless. *)
Theorem init_db_keeps_bookings (f : fault) (db : database) :
  ((init_db f db).1 = Returns tt <-> f <> ConnectFault)
  /\ rows_of (init_db f db).2 = rows_of db
  /\ sqlite_sequence (init_db f db).2 = sqlite_sequence db
  /\ (f = NoFault -> appointments (init_db f db).2 = Some (rows_of db))
  /\ (forall rows, appointments db = Some rows -> (init_db f db).2 = db).
Proof.
  destruct db as [table counter].
  unfold init_db, create_table, rows_of.
  destruct f; cbn [get_db_connection fst snd appointments sqlite_sequence];
    (split; [split; [discriminate || congruence | intros H; try reflexivity;
                      try (now contradiction H)] |]);
    destruct table as [rows |]; cbn [default appointments sqlite_sequence];
    repeat split; try reflexivity; try discriminate; try congruence.
Qed.

Lemma booked_db_table : appointments booked_db = Some (rows_of booked_db).
Proof. vm_compute. reflexivity. Qed.

Lemma init_db_keeps_bookings_witness :
  appointments (init_db NoFault booked_db).2 = Some (rows_of booked_db)
  /\ (init_db ExecuteFault booked_db).2 = booked_db.
Proof.
  split.
  - exact (proj1 (proj2 (proj2 (proj2
             (init_db_keeps_bookings NoFault booked_db)))) eq_refl).
  - exact (proj2 (proj2 (proj2 (proj2
             (init_db_keeps_bookings ExecuteFault booked_db))))
             _ booked_db_table).
Defined.
